(** * Explorer static server: the request-to-response pipeline

    A shallow embedding of [lib/static-server.js] (class [StaticServer]) and
    proofs about path containment, range negotiation, cache validation,
    compression gating, fingerprinting and error mapping.

    Conventions of the embedding.
    - A JavaScript string is a [string]: the sequence of its code units,
      restricted to 8-bit units (header values reach Node as latin1, paths
      and URL path names are ASCII after URL parsing).  File contents
      (a [Buffer]) are byte strings of the same type.
    - A JavaScript number that holds an integer or [NaN] is a [number]:
      [Int z] with [z : Z], or [NaN].  Rounding of integers beyond 2^53 is
      not modelled: statements about computed bounds and printed numbers
      are made for sizes and bounds in the safe integer range, where the
      numbers of the code are these integers.
    - [null] / [undefined] results are [None].
    - A call that may throw returns a [Result]; the handler threads the
      response object and a trace of the stages it ran through a small
      state-and-exception monad. *)

From Stdlib Require Import ZArith List String Ascii Bool Lia.
From Stdlib Require Import DecimalString.
Import ListNotations.
Local Open Scope string_scope.
Local Open Scope Z_scope.

(* ------------------------------------------------------------------ *)
(** ** JavaScript strings and numbers *)

Module JS.

(** [s.startsWith(p)] *)
Fixpoint startsWith (s p : string) {struct p} : bool :=
  match p, s with
  | EmptyString, _ => true
  | String c p', String d s' => Ascii.eqb c d && startsWith s' p'
  | String _ _, EmptyString => false
  end.

(** [s.slice(n)] for [0 <= n] *)
Fixpoint drop (n : nat) (s : string) : string :=
  match n, s with
  | O, _ => s
  | S n', String _ s' => drop n' s'
  | S _, EmptyString => EmptyString
  end.

(** [s.includes(p)] *)
Fixpoint includes (s p : string) : bool :=
  startsWith s p ||
  match s with
  | EmptyString => false
  | String _ s' => includes s' p
  end.

(** [s.replace(/pat/, rep)] for a pattern without metacharacters: the
    first occurrence of [pat] is replaced, the rest is kept. *)
Fixpoint replace (pat rep s : string) : string :=
  if startsWith s pat then rep ++ drop (String.length pat) s
  else match s with
       | EmptyString => EmptyString
       | String c s' => String c (replace pat rep s')
       end.

(** [s.split(sep)] for a one-character separator: never empty. *)
Fixpoint split (sep : ascii) (s : string) : list string :=
  match s with
  | EmptyString => [EmptyString]
  | String c s' =>
      if Ascii.eqb c sep then EmptyString :: split sep s'
      else match split sep s' with
           | [] => [String c EmptyString]
           | x :: xs => String c x :: xs
           end
  end.

(** [xs.join(sep)] *)
Fixpoint join (sep : string) (xs : list string) : string :=
  match xs with
  | [] => EmptyString
  | [x] => x
  | x :: xs' => x ++ sep ++ join sep xs'
  end.

Definition lower_char (c : ascii) : ascii :=
  let n := nat_of_ascii c in
  if ((65 <=? n) && (n <=? 90))%nat then ascii_of_nat (n + 32) else c.

(** [s.toLowerCase()] on the ASCII letters *)
Fixpoint toLowerCase (s : string) : string :=
  match s with
  | EmptyString => EmptyString
  | String c s' => String (lower_char c) (toLowerCase s')
  end.

(** [xs.includes(x)] on an array of strings *)
Definition array_includes (xs : list string) (x : string) : bool :=
  existsb (String.eqb x) xs.

(** Numbers that are integers or [NaN]. *)
Inductive number : Type :=
| NaN
| Int (z : Z).

Definition isNaN (x : number) : bool :=
  match x with NaN => true | Int _ => false end.

Definition sub (x y : number) : number :=
  match x, y with
  | Int a, Int b => Int (a - b)
  | _, _ => NaN
  end.

Definition add (x y : number) : number :=
  match x, y with
  | Int a, Int b => Int (a + b)
  | _, _ => NaN
  end.

(** [x >= y]: every comparison with [NaN] is false. *)
Definition ge (x y : number) : bool :=
  match x, y with
  | Int a, Int b => a >=? b
  | _, _ => false
  end.

Definition lt (x y : number) : bool :=
  match x, y with
  | Int a, Int b => a <? b
  | _, _ => false
  end.

(** [String(z)] for an integer *)
Definition string_of_Z (z : Z) : string :=
  NilZero.string_of_int (Z.to_int z).

(** [String(x)], also what a template literal inserts *)
Definition toString (x : number) : string :=
  match x with
  | NaN => "NaN"
  | Int z => string_of_Z z
  end.

Definition is_digit (c : ascii) : bool :=
  let n := nat_of_ascii c in ((48 <=? n) && (n <=? 57))%nat.

Definition digit_val (c : ascii) : Z := Z.of_nat (nat_of_ascii c) - 48.

(** White space that [parseInt] skips, among 8-bit code units:
    TAB, LF, VT, FF, CR, SP and NBSP. *)
Definition is_space (c : ascii) : bool :=
  let n := nat_of_ascii c in
  ((9 <=? n) && (n <=? 13) || (n =? 32) || (n =? 160))%nat.

Fixpoint skip_space (s : string) : string :=
  match s with
  | String c s' => if is_space c then skip_space s' else s
  | EmptyString => EmptyString
  end.

(** The longest prefix of decimal digits, read most significant first:
    [acc] is the value so far, [None] while no digit has been read. *)
Fixpoint read_digits (acc : option Z) (s : string) : option Z :=
  match s with
  | String c s' =>
      if is_digit c
      then read_digits (Some (10 * match acc with Some a => a | None => 0 end
                              + digit_val c)) s'
      else acc
  | EmptyString => acc
  end.

(** [parseInt(s, 10)]: leading white space, an optional sign, then the
    longest run of digits; [NaN] when there is no digit. *)
Definition parseInt (s : string) : number :=
  let s1 := skip_space s in
  let '(neg, s2) :=
    match s1 with
    | String c r =>
        if Ascii.eqb c "-" then (true, r)
        else if Ascii.eqb c "+" then (false, r)
        else (false, s1)
    | EmptyString => (false, s1)
    end in
  match read_digits None s2 with
  | None => NaN
  | Some v => Int (if neg then - v else v)
  end.

(** [parseInt(parts[i], 10)] where [parts[i]] may be [undefined]:
    [undefined] converts to the string "undefined", which has no digit. *)
Definition parseInt_opt (s : option string) : number :=
  match s with
  | Some s => parseInt s
  | None => NaN
  end.

End JS.

(* ------------------------------------------------------------------ *)
(** ** [crypto.createHash('md5')]: the MD5 digest (RFC 1321)

    32-bit words are integers in [Z], reduced with [wrap] after each
    addition and rotation. *)

Module MD5.

Definition mask32 : Z := 4294967295.
Definition wrap (x : Z) : Z := Z.land x mask32.
Definition not32 (x : Z) : Z := Z.lxor x mask32.
Definition rotl (x n : Z) : Z :=
  wrap (Z.lor (Z.shiftl x n) (Z.shiftr x (32 - n))).

(** [K[i] = floor(2^32 * |sin(i + 1)|)] *)
Definition K : list Z :=
  [ 3614090360; 3905402710; 606105819; 3250441966;
    4118548399; 1200080426; 2821735955; 4249261313;
    1770035416; 2336552879; 4294925233; 2304563134;
    1804603682; 4254626195; 2792965006; 1236535329;
    4129170786; 3225465664; 643717713; 3921069994;
    3593408605; 38016083; 3634488961; 3889429448;
    568446438; 3275163606; 4107603335; 1163531501;
    2850285829; 4243563512; 1735328473; 2368359562;
    4294588738; 2272392833; 1839030562; 4259657740;
    2763975236; 1272893353; 4139469664; 3200236656;
    681279174; 3936430074; 3572445317; 76029189;
    3654602809; 3873151461; 530742520; 3299628645;
    4096336452; 1126891415; 2878612391; 4237533241;
    1700485571; 2399980690; 4293915773; 2240044497;
    1873313359; 4264355552; 2734768916; 1309151649;
    4149444226; 3174756917; 718787259; 3951481745 ].

Definition shifts : list Z :=
  [ 7; 12; 17; 22; 7; 12; 17; 22; 7; 12; 17; 22; 7; 12; 17; 22;
    5; 9; 14; 20; 5; 9; 14; 20; 5; 9; 14; 20; 5; 9; 14; 20;
    4; 11; 16; 23; 4; 11; 16; 23; 4; 11; 16; 23; 4; 11; 16; 23;
    6; 10; 15; 21; 6; 10; 15; 21; 6; 10; 15; 21; 6; 10; 15; 21 ].

Definition state : Type := (Z * Z * Z * Z)%type.

Definition init : state := (1732584193, 4023233417, 2562383102, 271733878).

(** One of the 64 steps on the sixteen words [M] of a block. *)
Definition step (M : list Z) (st : state) (i : nat) : state :=
  let '(a, b, c, d) := st in
  let '(f, g) :=
    if (i <? 16)%nat then
      (Z.lor (Z.land b c) (Z.land (not32 b) d), i)
    else if (i <? 32)%nat then
      (Z.lor (Z.land d b) (Z.land (not32 d) c), ((5 * i + 1) mod 16)%nat)
    else if (i <? 48)%nat then
      (Z.lxor (Z.lxor b c) d, ((3 * i + 5) mod 16)%nat)
    else
      (Z.lxor c (Z.lor b (not32 d)), ((7 * i) mod 16)%nat) in
  let f' := wrap (f + a + nth i K 0 + nth g M 0) in
  (d, wrap (b + rotl f' (nth i shifts 0)), b, c).

Definition block (st : state) (M : list Z) : state :=
  let '(a0, b0, c0, d0) := st in
  let '(a, b, c, d) := fold_left (step M) (seq 0 64) st in
  (wrap (a0 + a), wrap (b0 + b), wrap (c0 + c), wrap (d0 + d)).

(** Little-endian 32-bit words of a byte sequence. *)
Fixpoint words (bs : list Z) : list Z :=
  match bs with
  | b0 :: b1 :: b2 :: b3 :: r =>
      (b0 + 256 * b1 + 65536 * b2 + 16777216 * b3) :: words r
  | _ => []
  end.

Fixpoint blocks (fuel : nat) (ws : list Z) (st : state) : state :=
  match fuel, ws with
  | S fuel', _ :: _ => blocks fuel' (skipn 16 ws) (block st (firstn 16 ws))
  | _, _ => st
  end.

Definition le_bytes (n : nat) (x : Z) : list Z :=
  map (fun k => Z.land (Z.shiftr x (8 * Z.of_nat k)) 255) (seq 0 n).

(** The message, a 1 bit, zeros up to 56 modulo 64, the bit length. *)
Definition pad (msg : list Z) : list Z :=
  let len := Z.of_nat (List.length msg) in
  msg ++ [128] ++ repeat 0 (Z.to_nat ((55 - len) mod 64))
      ++ le_bytes 8 (8 * len).

Definition hex_digit (x : Z) : ascii :=
  if x <? 10 then ascii_of_nat (Z.to_nat (48 + x))
  else ascii_of_nat (Z.to_nat (87 + x)).

Definition hex_byte (x : Z) : string :=
  String (hex_digit (Z.shiftr x 4)) (String (hex_digit (Z.land x 15)) "").

Definition bytes_of_string (s : string) : list Z :=
  map (fun c => Z.of_nat (nat_of_ascii c)) (list_ascii_of_string s).

(** [createHash('md5').update(data).digest('hex')] *)
Definition hexdigest (data : string) : string :=
  let ws := words (pad (bytes_of_string data)) in
  let '(a, b, c, d) := blocks (List.length ws) ws init in
  String.concat ""
    (map hex_byte (le_bytes 4 a ++ le_bytes 4 b ++ le_bytes 4 c ++ le_bytes 4 d)).

End MD5.

(* ------------------------------------------------------------------ *)
(** ** Node's [path] module (POSIX flavour): [normalize], [join],
       [extname] *)

Module Path.

Definition is_dotdot (seg : string) : bool := String.eqb seg "..".

(** The segment stack of [normalizeString]: [res] holds the segments kept
    so far, last one first.  Empty and "." segments are dropped; ".."
    removes the last kept segment unless there is none or it is ".."
    itself, in which case ".." is kept only above a relative path. *)
Fixpoint normalizeSegments (allowAboveRoot : bool) (res : list string)
         (segs : list string) : list string :=
  match segs with
  | [] => res
  | seg :: rest =>
      if String.eqb seg "" || String.eqb seg "." then
        normalizeSegments allowAboveRoot res rest
      else if is_dotdot seg then
        match res with
        | top :: res' =>
            if is_dotdot top
            then normalizeSegments allowAboveRoot
                   (if allowAboveRoot then seg :: res else res) rest
            else normalizeSegments allowAboveRoot res' rest
        | [] =>
            normalizeSegments allowAboveRoot
              (if allowAboveRoot then [seg] else []) rest
        end
      else normalizeSegments allowAboveRoot (seg :: res) rest
  end.

Definition normalizeString (p : string) (allowAboveRoot : bool) : string :=
  JS.join "/" (rev (normalizeSegments allowAboveRoot [] (JS.split "/" p))).

Fixpoint endsWithSlash (p : string) : bool :=
  match p with
  | EmptyString => false
  | String c EmptyString => Ascii.eqb c "/"
  | String _ p' => endsWithSlash p'
  end.

(** [path.normalize(p)] *)
Definition normalize (p : string) : string :=
  match p with
  | EmptyString => "."
  | String c _ =>
      let isAbsolute := Ascii.eqb c "/" in
      let trailingSeparator := endsWithSlash p in
      let q := normalizeString p (negb isAbsolute) in
      let q :=
        match q with
        | EmptyString =>
            if isAbsolute then "" else if trailingSeparator then "./" else "."
        | _ => if trailingSeparator then q ++ "/" else q
        end in
      if isAbsolute then "/" ++ q else q
  end.

(** [path.join(...args)]: the non-empty arguments joined by "/" and
    normalized; "." when there is none. *)
Definition join (args : list string) : string :=
  match filter (fun a => negb (String.eqb a "")) args with
  | [] => "."
  | parts => normalize (JS.join "/" parts)
  end.

(** Drop the trailing separators of a path. *)
Fixpoint trimSlashes (rsegs : list string) : list string :=
  match rsegs with
  | seg :: rest => if String.eqb seg "" then trimSlashes rest else rsegs
  | [] => []
  end.

(** The part of [s] from its last "." on, when there is one:
    [lastDot s = Some (i, ext)] with [i] the index of that dot. *)
Fixpoint lastDot (s : string) : option (nat * string) :=
  match s with
  | EmptyString => None
  | String c s' =>
      match lastDot s' with
      | Some (i, ext) => Some (S i, ext)
      | None => if Ascii.eqb c "." then Some (O, s) else None
      end
  end.

(** [path.extname(p)]: the extension of the last path component, from its
    last "." on; empty when the component has no ".", starts with its only
    "." or is "..". *)
Definition extname (p : string) : string :=
  match trimSlashes (rev (JS.split "/" p)) with
  | [] => ""
  | base :: _ =>
      match lastDot base with
      | None => ""
      | Some (O, _) => ""
      | Some (_, ext) => if String.eqb base ".." then "" else ext
      end
  end.

End Path.

(* ------------------------------------------------------------------ *)
(** ** The world around the server *)

(** What a call of the platform can throw. *)
Inductive Thrown : Type :=
| FsError (code : string)      (** a failed [fs] call, with its [err.code] *)
| InvalidURL                   (** [new URL(...)] *)
| URIError                     (** [decodeURIComponent] *)
| OutOfRange                   (** [fs.createReadStream] on bad bounds *)
| HeadersSent.                 (** [res.writeHead] after the head was sent *)

Inductive Result (A : Type) : Type :=
| Ok (a : A)
| Throw (e : Thrown).
Arguments Ok {A} a.
Arguments Throw {A} e.

(** [fs.Stats], the fields the server reads; [mtime] is
    [stats.mtime.getTime()], milliseconds since the epoch. *)
Record Stats : Type := mkStats {
  size : Z;
  mtime : Z;
  isDirectory : bool
}.

(** The collaborators the server calls but does not define: the WHATWG URL
    parser, percent-decoding, the MIME table, date formatting and the file
    system as it stands while the request is handled. *)
Record Platform : Type := mkPlatform {
  url_pathname : string -> string -> Result string;
      (** [new URL(input, base).pathname] *)
  decodeURIComponent : string -> Result string;
  mime_getType : string -> option string;
  toUTCString : Z -> string;
      (** [date.toUTCString()] of a date given by its epoch milliseconds *)
  stat : string -> Result Stats;
  readFile : string -> Result string;
  readdir : string -> Result (list string);
  createReadStream : string -> option (JS.number * JS.number) -> Result unit
      (** opening the byte source; throws on bounds it refuses *)
}.

Record Config : Type := mkConfig {
  port : Z;
  root : string;
  index : string
}.

(** The request headers the server looks at. *)
Record Headers : Type := mkHeaders {
  host : option string;
  range : option string;
  if_none_match : option string;
  if_modified_since : option string;
  accept_encoding : option string
}.

Record IncomingMessage : Type := mkRequest {
  url : option string;
  headers : Headers
}.

(** A response header object: keys in insertion order, assignment to an
    existing key keeps its place. *)
Definition HeaderMap : Type := list (string * string).

Fixpoint set_header (k v : string) (h : HeaderMap) : HeaderMap :=
  match h with
  | [] => [(k, v)]
  | (k', v') :: h' =>
      if String.eqb k k' then (k, v) :: h' else (k', v') :: set_header k v h'
  end.

Fixpoint get_header (k : string) (h : HeaderMap) : option string :=
  match h with
  | [] => None
  | (k', v') :: h' => if String.eqb k k' then Some v' else get_header k h'
  end.

(** What was written as the body of the response. *)
Inductive Body : Type :=
| Text (s : string)
    (** [res.end(s)]; [res.end()] is [Text ""] *)
| Stream (path : string) (slice : option (JS.number * JS.number))
         (gzip : bool).
    (** a read stream of the file, whole or from [start] to [end], piped
        into the response, through gzip when [gzip] holds *)

(** [http.ServerResponse]: the status line and headers once written, and
    the body. *)
Record ServerResponse : Type := mkResponse {
  head : option (Z * HeaderMap);
  body : option Body
}.

(** The stages of the pipeline a request went through, in order. *)
Inductive Call : Type :=
| CallParseRange (range : string) (size : Z)
| CallShouldCompress (filePath : string)
| CallCreateReadStream (filePath : string)
                       (slice : option (JS.number * JS.number))
| CallCompressStream.

(** The mutable objects of one request: the response, the [headers]
    object built by [getResponseHeaders] and mutated by the senders, and
    the trace of stages. *)
Record World : Type := mkWorld {
  res : ServerResponse;
  headersObj : HeaderMap;
  trace : list Call
}.

Definition initial : World :=
  {| res := {| head := None; body := None |}; headersObj := []; trace := [] |}.

(** Computations on the world that may throw. *)
Definition M (A : Type) : Type := World -> Result A * World.

Definition ret {A} (a : A) : M A := fun w => (Ok a, w).

Definition bind {A B} (m : M A) (k : A -> M B) : M B :=
  fun w =>
    match m w with
    | (Ok a, w') => k a w'
    | (Throw e, w') => (Throw e, w')
    end.

Definition lift {A} (r : Result A) : M A := fun w => (r, w).

(** [try { m } catch (err) { handler }] *)
Definition try_catch {A} (m : M A) (handler : Thrown -> M A) : M A :=
  fun w =>
    match m w with
    | (Ok a, w') => (Ok a, w')
    | (Throw e, w') => handler e w'
    end.

Declare Scope server_scope.
Delimit Scope server_scope with server.
Notation "x <- m ;; k" := (bind m (fun x => k))
  (at level 61, m at next level, right associativity) : server_scope.
Notation "m ;;; k" := (bind m (fun _ => k))
  (at level 61, right associativity) : server_scope.

Definition bindR {A B} (r : Result A) (k : A -> Result B) : Result B :=
  match r with
  | Ok a => k a
  | Throw e => Throw e
  end.

Definition log (c : Call) : M unit :=
  fun w => (Ok tt, {| res := res w; headersObj := headersObj w;
                      trace := trace w ++ [c] |}).

(** [res.writeHead(status, h)]: the headers are copied out of [h] now;
    a second call throws. *)
Definition writeHead (status : Z) (h : HeaderMap) : M unit :=
  fun w =>
    match head (res w) with
    | Some _ => (Throw HeadersSent, w)
    | None =>
        (Ok tt, {| res := {| head := Some (status, h); body := body (res w) |};
                   headersObj := headersObj w; trace := trace w |})
    end.

Definition write_body (b : Body) : M unit :=
  fun w =>
    (Ok tt, {| res := {| head := head (res w); body := Some b |};
               headersObj := headersObj w; trace := trace w |}).

(** [headers = {...}]: a fresh object for this request *)
Definition new_headers (h : HeaderMap) : M unit :=
  fun w => (Ok tt, {| res := res w; headersObj := h; trace := trace w |}).

(** [headers[k] = v] *)
Definition assign_header (k v : string) : M unit :=
  fun w =>
    (Ok tt, {| res := res w; headersObj := set_header k v (headersObj w);
               trace := trace w |}).

Definition read_headers : M HeaderMap := fun w => (Ok (headersObj w), w).

Definition falsy (s : option string) : bool :=
  match s with
  | None => true
  | Some s => String.eqb s ""
  end.

(** [h === s] for a header that may be absent *)
Definition header_is (h : option string) (s : string) : bool :=
  match h with
  | Some v => String.eqb v s
  | None => false
  end.

Definition dq : string := String "034"%char EmptyString.

(* ------------------------------------------------------------------ *)
(** ** [class StaticServer] *)

Record Range : Type := mkRange {
  start : JS.number;
  end_ : JS.number
}.

Definition compressibleExtensions : list string :=
  [".html"; ".htm"; ".css"; ".js"; ".json"; ".xml"; ".txt"; ".svg";
   ".webmanifest"].

(** [parseRange(range, size)] *)
Definition parseRange (range : string) (size : Z) : option Range :=
  let parts := JS.split "-" (JS.replace "bytes=" "" range) in
  let start := JS.parseInt_opt (nth_error parts 0) in
  let end_ := JS.parseInt_opt (nth_error parts 1) in
  let '(start, end_) :=
    if JS.isNaN start then
      (JS.sub (JS.Int size) end_, JS.sub (JS.Int size) (JS.Int 1))
    else if JS.isNaN end_ then
      (start, JS.sub (JS.Int size) (JS.Int 1))
    else (start, end_) in
  if JS.ge start (JS.Int size) || JS.ge end_ (JS.Int size) then None
  else Some {| start := start; end_ := end_ |}.

(** [shouldCompress(req, filePath)] *)
Definition shouldCompress (req : IncomingMessage) (filePath : string) : bool :=
  match accept_encoding (headers req) with
  | None => false
  | Some acceptEncoding =>
      if negb (JS.includes acceptEncoding "gzip") then false
      else
        let ext := JS.toLowerCase (Path.extname filePath) in
        JS.array_includes compressibleExtensions ext
  end.

Section StaticServer.

Variable P : Platform.
Variable config : Config.

Local Open Scope server_scope.

(** [getPathStats(requestPath)] *)
Definition getPathStats (requestPath : string) : Result (option Stats) :=
  match stat P requestPath with
  | Ok st => Ok (Some st)
  | Throw err =>
      match err with
      | FsError code => if String.eqb code "ENOENT" then Ok None else Throw err
      | _ => Throw err
      end
  end.

(** [getRequestPath(req)] *)
Definition getRequestPath (req : IncomingMessage) : Result (option string) :=
  match url req, host (headers req) with
  | Some u, Some h =>
      if falsy (Some u) || falsy (Some h) then Ok None
      else
        bindR (url_pathname P u ("http://" ++ h)) (fun pathname =>
        bindR (decodeURIComponent P pathname) (fun decoded =>
        let requestPath := Path.join [root config; decoded] in
        let requestPath := Path.normalize requestPath in
        Ok (if JS.startsWith requestPath (root config)
            then Some requestPath else None)))
  | _, _ => Ok None
  end.

(** [getETag(filePath, stats)] *)
Definition getETag (filePath : string) (stats : Stats) : Result string :=
  if size stats <? 1024 * 1024 then
    bindR (readFile P filePath) (fun content => Ok (MD5.hexdigest content))
  else
    Ok (MD5.hexdigest
          (JS.string_of_Z (size stats) ++ "-" ++ JS.string_of_Z (mtime stats))).

(** [sendErrorResponse(res, statusCode, message)] *)
Definition sendErrorResponse (statusCode : Z) (message : string) : M unit :=
  writeHead statusCode [("Content-Type", "text/plain")] ;;;
  write_body (Text message).

(** [getResponseHeaders(req, filePath, stats)]: builds the [headers]
    object and returns [isCached]. *)
Definition getResponseHeaders (req : IncomingMessage) (filePath : string)
           (stats : Stats) : M bool :=
  let ext := JS.toLowerCase (Path.extname filePath) in
  let mimeType :=
    match mime_getType P filePath with
    | Some m => if String.eqb m "" then "application/octet-stream" else m
    | None => "application/octet-stream"
    end in
  etag <- lift (getETag filePath stats) ;;
  let lastModified := toUTCString P (mtime stats) in
  let isCached :=
    header_is (if_none_match (headers req)) etag
    || header_is (if_modified_since (headers req)) lastModified in
  new_headers
    [ ("Content-Type", mimeType);
      ("ETag", etag);
      ("Last-Modified", lastModified);
      ("Cache-Control",
        if String.eqb ext ".html" then "no-cache, must-revalidate"
        else "public, max-age=31536000, immutable");
      ("Accept-Ranges", "bytes") ] ;;;
  ret isCached.

(** [sendRangeResponse(req, res, filePath, headers, stats)]; called with
    [req.headers.range] present. *)
Definition sendRangeResponse (req : IncomingMessage) (filePath : string)
           (stats : Stats) : M unit :=
  let rangeHeader :=
    match range (headers req) with Some r => r | None => "" end in
  log (CallParseRange rangeHeader (size stats)) ;;;
  match parseRange rangeHeader (size stats) with
  | None => sendErrorResponse 416 "Range Not Satisfiable"
  | Some rangeVal =>
      let start := start rangeVal in
      let end_ := end_ rangeVal in
      assign_header "Content-Range"
        ("bytes " ++ JS.toString start ++ "-" ++ JS.toString end_ ++ "/"
                  ++ JS.string_of_Z (size stats)) ;;;
      assign_header "Content-Length"
        (JS.toString (JS.add (JS.sub end_ start) (JS.Int 1))) ;;;
      h <- read_headers ;;
      writeHead 206 h ;;;
      log (CallCreateReadStream filePath (Some (start, end_))) ;;;
      lift (createReadStream P filePath (Some (start, end_))) ;;;
      log (CallShouldCompress filePath) ;;;
      if shouldCompress req filePath then
        assign_header "Content-Encoding" "gzip" ;;;
        log CallCompressStream ;;;
        write_body (Stream filePath (Some (start, end_)) true)
      else
        write_body (Stream filePath (Some (start, end_)) false)
  end.

(** [sendFileResponse(req, res, filePath, headers, stats)] *)
Definition sendFileResponse (req : IncomingMessage) (filePath : string)
           (stats : Stats) : M unit :=
  log (CallCreateReadStream filePath None) ;;;
  lift (createReadStream P filePath None) ;;;
  log (CallShouldCompress filePath) ;;;
  if shouldCompress req filePath then
    assign_header "Content-Encoding" "gzip" ;;;
    h <- read_headers ;;
    writeHead 200 h ;;;
    log CallCompressStream ;;;
    write_body (Stream filePath None true)
  else
    assign_header "Content-Length" (JS.string_of_Z (size stats)) ;;;
    h <- read_headers ;;
    writeHead 200 h ;;;
    write_body (Stream filePath None false).

(** [generateDirectoryIndex(directoryPath, reqUrl)], with [reqUrl] given
    by its [pathname]; any failure inside yields [null]. *)
Definition generateDirectoryIndex (directoryPath pathname : string)
  : option string :=
  match readdir P directoryPath with
  | Throw _ => None
  | Ok files =>
      let list :=
        JS.join ""
          (map (fun file =>
                  "<li><a href=" ++ dq ++ Path.join [pathname; file] ++ dq
                  ++ ">" ++ file ++ "</a></li>") files) in
      match decodeURIComponent P pathname with
      | Throw _ => None
      | Ok decoded =>
          Some ("<!DOCTYPE html><html lang=" ++ dq ++ "zh" ++ dq
                ++ "><head><meta charset=" ++ dq ++ "UTF-8" ++ dq
                ++ "></head><body><h1>Index of " ++ decoded
                ++ "</h1><ul>" ++ list ++ "</ul></body></html>")
      end
  end.

(** The part of [handleRequest] from the cache check on, for a file that
    exists. *)
Definition serveFile (req : IncomingMessage) (requestPath : string)
           (stats : Stats) : M unit :=
  isCached <- getResponseHeaders req requestPath stats ;;
  if isCached then
    writeHead 304 [] ;;; write_body (Text "")
  else if negb (falsy (range (headers req))) then
    sendRangeResponse req requestPath stats
  else
    sendFileResponse req requestPath stats.

(** [handleRequest(req, res)] *)
Definition handleRequest (req : IncomingMessage) : M unit :=
  try_catch
    (requestPath <- lift (getRequestPath req) ;;
     if falsy requestPath then sendErrorResponse 403 "403 Forbidden"
     else
       let requestPath :=
         match requestPath with Some p => p | None => "" end in
       stats <- lift (getPathStats requestPath) ;;
       match stats with
       | Some st =>
           if isDirectory st then
             let indexFilePath := Path.join [requestPath; index config] in
             stats' <- lift (getPathStats indexFilePath) ;;
             match stats' with
             | None =>
                 pathname <-
                   lift (url_pathname P
                           (match url req with Some u => u | None => "" end)
                           ("http://" ++ match host (headers req) with
                                         | Some h => h
                                         | None => "undefined"
                                         end)) ;;
                 match generateDirectoryIndex requestPath pathname with
                 | Some directoryIndex =>
                     if String.eqb directoryIndex "" then
                       sendErrorResponse 403 "403 Forbidden"
                     else
                       writeHead 200 [("Content-Type", "text/html")] ;;;
                       write_body (Text directoryIndex)
                 | None => sendErrorResponse 403 "403 Forbidden"
                 end
             | Some st' => serveFile req indexFilePath st'
             end
           else serveFile req requestPath st
       | None => sendErrorResponse 404 "404 Not Found"
       end)
    (fun err => sendErrorResponse 500 "500 Internal Server Error").

End StaticServer.

(* ------------------------------------------------------------------ *)
(** ** A sample deployment

    A concrete platform to run the server on: Node's behaviour on the
    inputs used below (ASCII request targets in origin form, a small disk
    under [/srv/www]). *)

Module Sample.

Definition hex_val (c : ascii) : option Z :=
  let n := Z.of_nat (nat_of_ascii c) in
  if (48 <=? n) && (n <=? 57) then Some (n - 48)
  else if (65 <=? n) && (n <=? 70) then Some (n - 55)
  else if (97 <=? n) && (n <=? 102) then Some (n - 87)
  else None.

(** [decodeURIComponent] on escapes of ASCII characters; a "%" that is not
    followed by two hexadecimal digits throws.  Escapes above 7F (UTF-8
    sequences) are outside this sample and refused. *)
Fixpoint percent_decode (s : string) : Result string :=
  match s with
  | EmptyString => Ok EmptyString
  | String "%"%char (String h (String l r)) =>
      match hex_val h, hex_val l with
      | Some a, Some b =>
          if 16 * a + b <? 128 then
            bindR (percent_decode r) (fun d =>
              Ok (String (ascii_of_nat (Z.to_nat (16 * a + b))) d))
          else Throw URIError
      | _, _ => Throw URIError
      end
  | String "%"%char _ => Throw URIError
  | String c r => bindR (percent_decode r) (fun d => Ok (String c d))
  end.

(** The part of a request target before its query or fragment. *)
Fixpoint cut_query (s : string) : string :=
  match s with
  | EmptyString => EmptyString
  | String c r =>
      if Ascii.eqb c "?" || Ascii.eqb c "#" then EmptyString
      else String c (cut_query r)
  end.

Definition single_dot (seg : string) : bool :=
  let l := JS.toLowerCase seg in String.eqb l "." || String.eqb l "%2e".

Definition double_dot (seg : string) : bool :=
  let l := JS.toLowerCase seg in
  String.eqb l ".." || String.eqb l ".%2e" || String.eqb l "%2e."
  || String.eqb l "%2e%2e".

(** The URL parser's path state: dot segments are resolved while parsing,
    also in their "%2e" spellings; [out] is the path so far, last segment
    first. *)
Fixpoint url_segments (out : list string) (segs : list string) : list string :=
  match segs with
  | [] => out
  | seg :: rest =>
      let last := match rest with [] => true | _ => false end in
      if double_dot seg then
        let out' := match out with [] => [] | _ :: o => o end in
        url_segments (if last then "" :: out' else out') rest
      else if single_dot seg then
        url_segments (if last then "" :: out else out) rest
      else url_segments (seg :: out) rest
  end.

(** [new URL(target, base).pathname] for a target in origin form
    ("/" first, not "//") made of characters the parser keeps as they are
    (no space, backslash or non-ASCII); anything else is outside this
    sample and refused. *)
Definition pathname_of (target base : string) : Result string :=
  match target with
  | String "/"%char (String "/"%char _) => Throw InvalidURL
  | String "/"%char r =>
      Ok ("/" ++ JS.join "/"
                   (rev (url_segments [] (JS.split "/" (cut_query r)))))
  | _ => Throw InvalidURL
  end.

Definition mime_table (filePath : string) : option string :=
  let ext := JS.toLowerCase (Path.extname filePath) in
  if String.eqb ext ".html" then Some "text/html"
  else if String.eqb ext ".js" then Some "application/javascript"
  else if String.eqb ext ".txt" then Some "text/plain"
  else if String.eqb ext ".png" then Some "image/png"
  else None.

Definition pad2 (n : Z) : string :=
  if n <? 10 then "0" ++ JS.string_of_Z n else JS.string_of_Z n.

Definition pad4 (n : Z) : string :=
  if n <? 10 then "000" ++ JS.string_of_Z n
  else if n <? 100 then "00" ++ JS.string_of_Z n
  else if n <? 1000 then "0" ++ JS.string_of_Z n
  else JS.string_of_Z n.

(** [new Date(ms).toUTCString()], for dates from year 0 on:
    the civil date of the day number, then the time of day. *)
Definition utc_string (ms : Z) : string :=
  let days := ms / 86400000 in
  let secs := (ms mod 86400000) / 1000 in
  let z := days + 719468 in
  let era := z / 146097 in
  let doe := z - era * 146097 in
  let yoe := (doe - doe / 1460 + doe / 36524 - doe / 146096) / 365 in
  let doy := doe - (365 * yoe + yoe / 4 - yoe / 100) in
  let mp := (5 * doy + 2) / 153 in
  let d := doy - (153 * mp + 2) / 5 + 1 in
  let m := if mp <? 10 then mp + 3 else mp - 9 in
  let y := yoe + era * 400 + (if m <=? 2 then 1 else 0) in
  let wd := nth (Z.to_nat ((days + 4) mod 7))
                ["Sun"; "Mon"; "Tue"; "Wed"; "Thu"; "Fri"; "Sat"] "" in
  let mon := nth (Z.to_nat (m - 1))
                 ["Jan"; "Feb"; "Mar"; "Apr"; "May"; "Jun";
                  "Jul"; "Aug"; "Sep"; "Oct"; "Nov"; "Dec"] "" in
  wd ++ ", " ++ pad2 d ++ " " ++ mon ++ " " ++ pad4 y ++ " "
     ++ pad2 (secs / 3600) ++ ":" ++ pad2 ((secs / 60) mod 60) ++ ":"
     ++ pad2 (secs mod 60) ++ " GMT".

(** What is at a path of the disk. *)
Inductive Entry : Type :=
| File (content : string) (modified : Z)
| Dir (entries : list string)
| Broken (code : string).      (** every access fails with this code *)

Definition Disk : Type := list (string * Entry).

Fixpoint lookup (d : Disk) (p : string) : option Entry :=
  match d with
  | [] => None
  | (q, e) :: d' => if String.eqb p q then Some e else lookup d' p
  end.

Definition disk_stat (d : Disk) (p : string) : Result Stats :=
  match lookup d p with
  | None => Throw (FsError "ENOENT")
  | Some (File content modified) =>
      Ok {| size := Z.of_nat (String.length content); mtime := modified;
            isDirectory := false |}
  | Some (Dir _) => Ok {| size := 4096; mtime := 0; isDirectory := true |}
  | Some (Broken code) => Throw (FsError code)
  end.

Definition disk_readFile (d : Disk) (p : string) : Result string :=
  match lookup d p with
  | None => Throw (FsError "ENOENT")
  | Some (File content _) => Ok content
  | Some (Dir _) => Throw (FsError "EISDIR")
  | Some (Broken code) => Throw (FsError code)
  end.

Definition disk_readdir (d : Disk) (p : string) : Result (list string) :=
  match lookup d p with
  | None => Throw (FsError "ENOENT")
  | Some (File _ _) => Throw (FsError "ENOTDIR")
  | Some (Dir entries) => Ok entries
  | Some (Broken code) => Throw (FsError code)
  end.

Definition valid_position (x : JS.number) : bool :=
  match x with
  | JS.Int z => 0 <=? z
  | JS.NaN => false
  end.

(** [fs.createReadStream(path, {start, end})] refuses bounds that are not
    integers from 0 on, and a start beyond the end. *)
Definition open_stream (p : string) (slice : option (JS.number * JS.number))
  : Result unit :=
  match slice with
  | None => Ok tt
  | Some (s, e) =>
      if valid_position s && valid_position e && negb (JS.lt e s)
      then Ok tt else Throw OutOfRange
  end.

Definition platform (d : Disk) : Platform :=
  {| url_pathname := pathname_of;
     decodeURIComponent := percent_decode;
     mime_getType := mime_table;
     toUTCString := utc_string;
     stat := disk_stat d;
     readFile := disk_readFile d;
     readdir := disk_readdir d;
     createReadStream := open_stream |}.

Definition config : Config :=
  {| port := 3000; root := "/srv/www"; index := "index.html" |}.

Definition app_js : string :=
  "console.log('explorer');" ++ "console.log('explorer');"
  ++ "console.log('explorer');" ++ "console.log('explorer');"
  ++ "// 100".

Definition disk : Disk :=
  [ ("/srv/www", Dir ["app.js"; "logo.png"; "docs"; "site"; "locked"]);
    ("/srv/www/app.js", File app_js 784887151000);
    ("/srv/www/logo.png", File "PNG-bytes" 784887151000);
    ("/srv/www/docs", Dir ["a.txt"; "b c.txt"]);
    ("/srv/www/docs/a.txt", File "0123456789" 0);
    ("/srv/www/site", Dir ["index.html"]);
    ("/srv/www/site/index.html", File "<p>hi</p>" 951782400000);
    ("/srv/www/locked", Broken "EACCES") ].

Definition get (target : string) (h : Headers) : IncomingMessage :=
  {| url := Some target; headers := h |}.

Definition plain : Headers :=
  {| host := Some "localhost:3000"; range := None; if_none_match := None;
     if_modified_since := None; accept_encoding := None |}.

Definition with_range (r : string) (h : Headers) : Headers :=
  {| host := host h; range := Some r; if_none_match := if_none_match h;
     if_modified_since := if_modified_since h;
     accept_encoding := accept_encoding h |}.

Definition with_encoding (e : string) (h : Headers) : Headers :=
  {| host := host h; range := range h; if_none_match := if_none_match h;
     if_modified_since := if_modified_since h;
     accept_encoding := Some e |}.

Definition with_etag (t : string) (h : Headers) : Headers :=
  {| host := host h; range := range h; if_none_match := Some t;
     if_modified_since := if_modified_since h;
     accept_encoding := accept_encoding h |}.

Definition with_since (t : string) (h : Headers) : Headers :=
  {| host := host h; range := range h; if_none_match := if_none_match h;
     if_modified_since := Some t;
     accept_encoding := accept_encoding h |}.

(** Run the server of the sample on one request. *)
Definition serve (req : IncomingMessage) : Result unit * World :=
  handleRequest (platform disk) config req initial.

(** The status, headers and body of the response to a request. *)
Definition respond (req : IncomingMessage) : ServerResponse :=
  res (snd (serve req)).

End Sample.

(* ------------------------------------------------------------------ *)
(** ** Vocabulary of the properties *)

(** The two numeric fields of a [Range] header as [parseRange] reads them:
    [parts[0]] and [parts[1]] after [parseInt]. *)
Definition rangeFields (range : string) : JS.number * JS.number :=
  let parts := JS.split "-" (JS.replace "bytes=" "" range) in
  (JS.parseInt_opt (nth_error parts 0), JS.parseInt_opt (nth_error parts 1)).

(** [Number.MAX_SAFE_INTEGER]: up to it, in absolute value, the integers
    are the doubles themselves, and sums and differences of them that stay
    in this range are exact.  File sizes lie in this range. *)
Definition MAX_SAFE_INTEGER : Z := 9007199254740991.

Definition safe_size (size : Z) : Prop := 0 <= size <= MAX_SAFE_INTEGER.

Definition safe_number (x : JS.number) : Prop :=
  match x with
  | JS.NaN => True
  | JS.Int z => - MAX_SAFE_INTEGER <= z <= MAX_SAFE_INTEGER
  end.

(** Both numeric fields of the header, where they parse, are in the safe
    range. *)
Definition safe_fields (range : string) : Prop :=
  safe_number (fst (rangeFields range))
  /\ safe_number (snd (rangeFields range)).

(** The byte-range invariant of the data model: both bounds are integers,
    [0 <= start <= end], and both lie below the size. *)
Definition ByteRange_inv (size : Z) (r : Range) : Prop :=
  exists s e, start r = JS.Int s /\ end_ r = JS.Int e /\
              0 <= s /\ s <= e /\ s < size /\ e < size.

(** A bound of a well-formed range header: a non-empty run of decimal
    digits, and the integer it denotes. *)
Fixpoint all_digits (s : string) : bool :=
  match s with
  | EmptyString => true
  | String c r => JS.is_digit c && all_digits r
  end.

Definition is_bound (s : string) : Prop := s <> "" /\ all_digits s = true.

Fixpoint decimal (acc : Z) (s : string) : Z :=
  match s with
  | EmptyString => acc
  | String c r => decimal (10 * acc + JS.digit_val c) r
  end.

Definition bound_value (s : string) : Z := decimal 0 s.

(** The character [c] occurs in [s]. *)
Fixpoint has_char (c : ascii) (s : string) : bool :=
  match s with
  | EmptyString => false
  | String d r => Ascii.eqb d c || has_char c r
  end.

(** What range negotiation answers for the bounds [s] and [e] on a file of
    [size] bytes: unsatisfiable exactly when [s >= size] or [e >= size]. *)
Definition negotiate (size s e : Z) : option Range :=
  if (s >=? size) || (e >=? size) then None
  else Some {| start := JS.Int s; end_ := JS.Int e |}.

(** The response says or is gzip: its head carries
    [Content-Encoding: gzip], or its body went through the compressor. *)
Definition gzipped (r : ServerResponse) : bool :=
  match head r with
  | Some (_, h) => header_is (get_header "Content-Encoding" h) "gzip"
  | None => false
  end
  || match body r with
     | Some (Stream _ _ true) => true
     | _ => false
     end.

(** The file a request is answered from, once its path [p] is resolved:
    [p] itself when it is a regular file, the index file of [p] when [p]
    is a directory that has one. *)
Inductive resolves (P : Platform) (config : Config) (p : string)
  : string -> Stats -> Prop :=
| resolves_file st :
    stat P p = Ok st -> isDirectory st = false ->
    resolves P config p p st
| resolves_index d st :
    stat P p = Ok d -> isDirectory d = true ->
    stat P (Path.join [p; index config]) = Ok st ->
    resolves P config p (Path.join [p; index config]) st.

(** The response of an error path: plain text with the given status. *)
Definition error_response (status : Z) (message : string) : ServerResponse :=
  {| head := Some (status, [("Content-Type", "text/plain")]);
     body := Some (Text message) |}.

(** Two 128-byte contents, given in hexadecimal, that share one MD5
    digest. *)
Fixpoint of_hex (s : string) : string :=
  match s with
  | String h (String l r) =>
      match Sample.hex_val h, Sample.hex_val l with
      | Some a, Some b => String (ascii_of_nat (Z.to_nat (16 * a + b))) (of_hex r)
      | _, _ => EmptyString
      end
  | _ => EmptyString
  end.

Definition twin_a : string :=
  of_hex ("d131dd02c5e6eec4693d9a0698aff95c2fcab58712467eab4004583eb8fb7f89"
       ++ "55ad340609f4b30283e488832571415a085125e8f7cdc99fd91dbdf280373c5b"
       ++ "d8823e3156348f5bae6dacd436c919c6dd53e2b487da03fd02396306d248cda0"
       ++ "e99f33420f577ee8ce54b67080a80d1ec69821bcb6a8839396f9652b6ff72a70").

Definition twin_b : string :=
  of_hex ("d131dd02c5e6eec4693d9a0698aff95c2fcab50712467eab4004583eb8fb7f89"
       ++ "55ad340609f4b30283e4888325f1415a085125e8f7cdc99fd91dbd7280373c5b"
       ++ "d8823e3156348f5bae6dacd436c919c6dd53e23487da03fd02396306d248cda0"
       ++ "e99f33420f577ee8ce54b67080280d1ec69821bcb6a8839396f965ab6ff72a70").

(* ------------------------------------------------------------------ *)
(** ** [lib/utils.js] *)

Module Utils.

Definition newline : ascii := "010"%char.

(** [str.replace] of a newline anchored at the start by the empty
    string: one newline at the very start is removed. *)
Definition stripLeadingNewline (str : string) : string :=
  match str with
  | String c r => if Ascii.eqb c newline then r else str
  | EmptyString => str
  end.

(** The length of the match of the leading white-space pattern on a
    line: the number of white-space characters the line starts with. *)
Fixpoint leadingSpace (line : string) : nat :=
  match line with
  | String c r => if JS.is_space c then S (leadingSpace r) else O
  | EmptyString => O
  end.

(** [dedent(str)] *)
Definition dedent (str : string) : string :=
  let lines := JS.split newline (stripLeadingNewline str) in
  let indent :=
    match lines with
    | line0 :: _ => leadingSpace line0
    | [] => O
    end in
  JS.join (String newline "") (map (JS.drop indent) lines).

End Utils.

(* ------------------------------------------------------------------ *)
(** ** Vocabulary of the further properties *)

(** The [headers] object that [getResponseHeaders] builds for a file with
    fingerprint [etag]. *)
Definition responseHeaders (P : Platform) (filePath : string) (st : Stats)
           (etag : string) : HeaderMap :=
  [ ("Content-Type",
      match mime_getType P filePath with
      | Some m => if String.eqb m "" then "application/octet-stream" else m
      | None => "application/octet-stream"
      end);
    ("ETag", etag);
    ("Last-Modified", toUTCString P (mtime st));
    ("Cache-Control",
      if String.eqb (JS.toLowerCase (Path.extname filePath)) ".html"
      then "no-cache, must-revalidate"
      else "public, max-age=31536000, immutable");
    ("Accept-Ranges", "bytes") ].

(** The status codes the server uses. *)
Definition statuses : list Z := [200; 206; 304; 403; 404; 416; 500].

(** One entry of a directory listing. *)
Definition anchor (pathname file : string) : string :=
  "<li><a href=" ++ dq ++ Path.join [pathname; file] ++ dq ++ ">" ++ file
  ++ "</a></li>".

(** White space that is not a line break, as a string of it. *)
Fixpoint is_indent (w : string) : bool :=
  match w with
  | EmptyString => true
  | String c r => JS.is_space c && negb (Ascii.eqb c Utils.newline) && is_indent r
  end.

(** The line does not begin with white space. *)
Definition starts_flush (line : string) : bool :=
  match line with
  | String c _ => negb (JS.is_space c)
  | EmptyString => true
  end.

(** The head of a satisfiable ranged response. *)
Definition partialHeaders (r : Range) (size : Z) (h : HeaderMap) : HeaderMap :=
  set_header "Content-Length"
    (JS.toString (JS.add (JS.sub (end_ r) (start r)) (JS.Int 1)))
    (set_header "Content-Range"
       ("bytes " ++ JS.toString (start r) ++ "-" ++ JS.toString (end_ r)
                 ++ "/" ++ JS.string_of_Z size) h).

(** What the handler does with a run of [serveFile]: its [catch]. *)
Definition guarded (m : M unit) : Result unit * World :=
  try_catch m (fun _ => sendErrorResponse 500 "500 Internal Server Error")
            initial.

Definition settled (r : ServerResponse) : Result unit * World :=
  (Ok tt, {| res := r; headersObj := []; trace := [] |}).

(** What a client and the caller see of a run: how [handleRequest]
    returned, and the response. *)
Definition answer (rw : Result unit * World) : Result unit * ServerResponse :=
  (fst rw, res (snd rw)).

(** The segments of a path. *)
Definition segments (p : string) : list string := JS.split "/" p.

(** A disk on which the index entry of a directory is itself a directory,
    and one with an empty file. *)
Definition disk_odd : Sample.Disk :=
  [ ("/srv/www", Sample.Dir ["nested"; "empty.txt"; "page.html"]);
    ("/srv/www/nested", Sample.Dir ["index.html"]);
    ("/srv/www/nested/index.html", Sample.Dir []);
    ("/srv/www/empty.txt", Sample.File "" 0);
    ("/srv/www/page.html", Sample.File "<p>hi</p>" 0);
    ("/srv/www/private", Sample.Dir ["x"]);
    ("/srv/www/private/index.html", Sample.Broken "EACCES") ].

(* ------------------------------------------------------------------ *)
(** ** The platform functions on known values *)

Example parseInt_garbage_tail : JS.parseInt " 42abc" = JS.Int 42.
Proof. reflexivity. Qed.

Example parseInt_empty : JS.parseInt "" = JS.NaN.
Proof. reflexivity. Qed.

Example split_both : JS.split "-" "0-99" = ["0"; "99"].
Proof. reflexivity. Qed.

Example split_suffix : JS.split "-" "-500" = [""; "500"].
Proof. reflexivity. Qed.

Example split_empty : JS.split "-" "" = [""].
Proof. reflexivity. Qed.

Example toString_negative : JS.toString (JS.Int (-400)) = "-400".
Proof. reflexivity. Qed.

Example md5_empty : MD5.hexdigest "" = "d41d8cd98f00b204e9800998ecf8427e".
Proof. vm_compute. reflexivity. Qed.

Example md5_abc : MD5.hexdigest "abc" = "900150983cd24fb0d6963f7d28e17f72".
Proof. vm_compute. reflexivity. Qed.

Example md5_two_blocks :
  MD5.hexdigest
    ("1234567890123456789012345678901234567890"
     ++ "1234567890123456789012345678901234567890")
  = "57edf4a22be3c955ac49da2e2107b67a".
Proof. vm_compute. reflexivity. Qed.

Example normalize_known :
  map Path.normalize
      ["/foo/bar//baz/asdf/quux/.."; ""; "a/../.."; "/.."; "a/../"; "/a/b/"]
  = ["/foo/bar/baz/asdf"; "."; ".."; "/"; "./"; "/a/b/"].
Proof. reflexivity. Qed.

Example join_escapes :
  Path.join ["/srv/www"; "/../../etc/passwd"] = "/etc/passwd".
Proof. reflexivity. Qed.

Example extname_known :
  map Path.extname ["a.txt"; "/x/.bashrc"; "a."; ".."; "/a.b/c"; "b.tar.gz"]
  = [".txt"; ""; "."; ""; ""; ".gz"].
Proof. reflexivity. Qed.

Example utc_string_known :
  map Sample.utc_string [0; 784887151000; 951782400000]
  = ["Thu, 01 Jan 1970 00:00:00 GMT"; "Tue, 15 Nov 1994 08:12:31 GMT";
     "Tue, 29 Feb 2000 00:00:00 GMT"].
Proof. vm_compute. reflexivity. Qed.

Example pathname_keeps_encoded_slash :
  Sample.pathname_of "/..%2f..%2fetc/passwd?x=1" "http://localhost:3000"
  = Ok "/..%2f..%2fetc/passwd".
Proof. reflexivity. Qed.

Example pathname_resolves_dots :
  Sample.pathname_of "/a/../../b/./c/.." "http://localhost:3000" = Ok "/b/".
Proof. reflexivity. Qed.

(* ------------------------------------------------------------------ *)
(** ** Strings *)

Lemma startsWith_spec s p :
  JS.startsWith s p = true <-> exists post, s = p ++ post.
Proof.
  revert s; induction p as [|c p IH]; intros s; simpl.
  - split; [intros _; now exists s | intros _; now destruct s].
  - destruct s as [|d s]; simpl.
    + split; [discriminate | intros [post H]; discriminate].
    + rewrite andb_true_iff, Ascii.eqb_eq, IH. split.
      * intros [-> [post ->]]. now exists post.
      * intros [post H]. injection H as -> ->. split; [reflexivity | now exists post].
Qed.

Lemma includes_spec s p :
  JS.includes s p = true <-> exists pre post, s = pre ++ p ++ post.
Proof.
  induction s as [|c s IH].
  - cbn [JS.includes]. rewrite orb_false_r, startsWith_spec. split.
    + intros [post H]. now exists "", post.
    + intros [pre [post H]]. destruct pre; [now exists post | discriminate].
  - cbn [JS.includes]. rewrite orb_true_iff, startsWith_spec, IH. split.
    + intros [[post H] | [pre [post H]]].
      * now exists "", post.
      * exists (String c pre), post. simpl. now rewrite H.
    + intros [pre [post H]]. destruct pre as [|d pre].
      * left. now exists post.
      * right. simpl in H. injection H as _ H. now exists pre, post.
Qed.

Lemma array_includes_spec xs x :
  JS.array_includes xs x = true <-> In x xs.
Proof.
  unfold JS.array_includes. rewrite existsb_exists. split.
  - intros [y [Hin Heq]]. apply String.eqb_eq in Heq. now subst.
  - intros Hin. exists x. split; [assumption | apply String.eqb_refl].
Qed.

(* ------------------------------------------------------------------ *)
(** ** Compression gating in [shouldCompress] *)

Lemma shouldCompress_true_iff req filePath :
  shouldCompress req filePath = true <->
  (exists ae, accept_encoding (headers req) = Some ae
              /\ JS.includes ae "gzip" = true)
  /\ In (JS.toLowerCase (Path.extname filePath)) compressibleExtensions.
Proof.
  unfold shouldCompress.
  destruct (accept_encoding (headers req)) as [ae|].
  - destruct (JS.includes ae "gzip") eqn:Hinc; cbn [negb].
    + rewrite array_includes_spec. split.
      * intros Hin. split; [now exists ae | assumption].
      * now intros [_ Hin].
    + split; [discriminate|].
      intros [[ae' [Hae H]] _]. injection Hae as <-. congruence.
  - split; [discriminate|]. intros [[ae [H _]] _]. discriminate.
Qed.

(** C10. Gzip acceptance is a substring test: [shouldCompress] holds
    exactly when the [Accept-Encoding] value contains "gzip" somewhere and
    the lower-cased extension of the file is in the allow-list; so
    "gzip;q=0" and "x-gzip" enable compression, and a request without the
    header is never compressed. *)
Theorem shouldCompress_substring_test :
  (forall req filePath,
      shouldCompress req filePath = true <->
      (exists ae pre post,
          accept_encoding (headers req) = Some ae /\
          ae = pre ++ "gzip" ++ post) /\
      In (JS.toLowerCase (Path.extname filePath)) compressibleExtensions)
  /\ (forall req filePath,
         accept_encoding (headers req) = None ->
         shouldCompress req filePath = false)
  /\ shouldCompress (Sample.get "/a.js" (Sample.with_encoding "gzip;q=0" Sample.plain))
                    "/srv/www/a.js" = true
  /\ shouldCompress (Sample.get "/a.js" (Sample.with_encoding "x-gzip" Sample.plain))
                    "/srv/www/a.js" = true.
Proof.
  split; [|split; [|split; reflexivity]].
  - intros req filePath. rewrite shouldCompress_true_iff. split.
    + intros [[ae [Hae Hinc]] Hin]. split; [|assumption].
      apply includes_spec in Hinc. destruct Hinc as [pre [post H]].
      now exists ae, pre, post.
    + intros [[ae [pre [post [Hae H]]]] Hin]. split; [|assumption].
      exists ae. split; [assumption|].
      apply includes_spec. now exists pre, post.
  - intros req filePath H. unfold shouldCompress. now rewrite H.
Qed.

(* ------------------------------------------------------------------ *)
(** ** Reading the fields of a [Range] header *)

Lemma digit_facts c :
  JS.is_digit c = true ->
  JS.is_space c = false /\ Ascii.eqb c "-" = false /\ Ascii.eqb c "+" = false
  /\ 0 <= JS.digit_val c.
Proof.
  destruct c as [[] [] [] [] [] [] [] []]; intros H; try discriminate H;
    repeat split; discriminate.
Qed.

Lemma read_digits_decimal s : forall acc,
  all_digits s = true -> JS.read_digits (Some acc) s = Some (decimal acc s).
Proof.
  induction s as [|c r IH]; intros acc H; simpl in *.
  - reflexivity.
  - apply andb_true_iff in H. destruct H as [Hc Hr]. rewrite Hc. now apply IH.
Qed.

Lemma parseInt_bound s : is_bound s -> JS.parseInt s = JS.Int (bound_value s).
Proof.
  intros [Hne Hd]. destruct s as [|c r]; [congruence|].
  simpl in Hd. apply andb_true_iff in Hd. destruct Hd as [Hc Hr].
  destruct (digit_facts c Hc) as (Hsp & Hm & Hp & _).
  unfold JS.parseInt, bound_value. cbn [JS.skip_space]. rewrite Hsp, Hm, Hp.
  cbn [JS.read_digits decimal]. rewrite Hc.
  now rewrite read_digits_decimal.
Qed.

Lemma read_digits_nonneg s : forall acc v,
  (forall a, acc = Some a -> 0 <= a) ->
  JS.read_digits acc s = Some v -> 0 <= v.
Proof.
  induction s as [|c r IH]; intros acc v Hacc H; cbn [JS.read_digits] in H.
  - now apply Hacc.
  - destruct (JS.is_digit c) eqn:Hc; [|now apply Hacc].
    apply IH in H; [assumption|].
    intros a Ha.
    assert (E : a = 10 * match acc with Some a0 => a0 | None => 0 end
                    + JS.digit_val c) by congruence.
    destruct (digit_facts c Hc) as (_ & _ & _ & Hv).
    destruct acc as [a0|]; [specialize (Hacc a0 eq_refl)|]; lia.
Qed.

Lemma skip_space_no_char c s :
  has_char c s = false -> has_char c (JS.skip_space s) = false.
Proof.
  induction s as [|d r IH]; intros H; simpl in *; [reflexivity|].
  destruct (JS.is_space d); [|assumption].
  apply orb_false_iff in H. now apply IH.
Qed.

(** A field without "-" never parses to a negative number. *)
Lemma parseInt_nonneg s z :
  has_char "-" s = false -> JS.parseInt s = JS.Int z -> 0 <= z.
Proof.
  intros H. apply skip_space_no_char in H. unfold JS.parseInt.
  destruct (JS.skip_space s) as [|c r].
  - simpl. discriminate.
  - simpl in H. apply orb_false_iff in H. destruct H as [Hc _]. rewrite Hc.
    destruct (Ascii.eqb c "+").
    + destruct (JS.read_digits None r) as [v|] eqn:Hv; [|discriminate].
      intros E. injection E as <-.
      eapply read_digits_nonneg; [|exact Hv]. discriminate.
    + destruct (JS.read_digits None (String c r)) as [v|] eqn:Hv; [|discriminate].
      intros E. injection E as <-.
      eapply read_digits_nonneg; [|exact Hv]. discriminate.
Qed.

Lemma split_nonempty sep s : JS.split sep s <> [].
Proof.
  destruct s as [|c r]; simpl; [discriminate|].
  destruct (Ascii.eqb c sep); [discriminate|].
  destruct (JS.split sep r); discriminate.
Qed.

Lemma split_parts_no_sep sep s : forall x,
  In x (JS.split sep s) -> has_char sep x = false.
Proof.
  induction s as [|c r IH]; intros x Hin; simpl in Hin.
  - destruct Hin as [<-|[]]. reflexivity.
  - destruct (Ascii.eqb c sep) eqn:Hc.
    + destruct Hin as [<-|Hin]; [reflexivity | now apply IH].
    + destruct (JS.split sep r) as [|y ys] eqn:Hs.
      * destruct Hin as [<-|[]]. simpl. now rewrite Hc.
      * destruct Hin as [<-|Hin].
        -- simpl. rewrite Hc. apply IH. now left.
        -- apply IH. now right.
Qed.

Lemma all_digits_no_minus s : all_digits s = true -> has_char "-" s = false.
Proof.
  induction s as [|c r IH]; intros H; simpl in *; [reflexivity|].
  apply andb_true_iff in H. destruct H as [Hc Hr].
  destruct (digit_facts c Hc) as (_ & Hm & _). rewrite Hm. now apply IH.
Qed.

Lemma split_app sep a b :
  has_char sep a = false ->
  JS.split sep (a ++ String sep b) = a :: JS.split sep b.
Proof.
  induction a as [|c r IH]; intros H; simpl in *.
  - now rewrite Ascii.eqb_refl.
  - apply orb_false_iff in H. destruct H as [Hc Hr].
    rewrite Hc. now rewrite IH.
Qed.

Lemma split_single sep a : has_char sep a = false -> JS.split sep a = [a].
Proof.
  induction a as [|c r IH]; intros H; simpl in *; [reflexivity|].
  apply orb_false_iff in H. destruct H as [Hc Hr].
  rewrite Hc. now rewrite IH.
Qed.

Lemma parseRange_fields range size :
  parseRange range size =
  let '(s, e) :=
    match rangeFields range with
    | (JS.NaN, e0) => (JS.sub (JS.Int size) e0, JS.Int (size - 1))
    | (JS.Int s0, JS.NaN) => (JS.Int s0, JS.Int (size - 1))
    | (JS.Int s0, JS.Int e0) => (JS.Int s0, JS.Int e0)
    end in
  if JS.ge s (JS.Int size) || JS.ge e (JS.Int size) then None
  else Some {| start := s; end_ := e |}.
Proof.
  unfold parseRange, rangeFields.
  destruct (JS.parseInt_opt (nth_error _ 0)) as [|s0];
    destruct (JS.parseInt_opt (nth_error _ 1)) as [|e0]; reflexivity.
Qed.

Lemma rangeFields_nonneg range :
  (forall s, fst (rangeFields range) = JS.Int s -> 0 <= s) /\
  (forall e, snd (rangeFields range) = JS.Int e -> 0 <= e).
Proof.
  unfold rangeFields. set (parts := JS.split "-" _).
  assert (Hparts : forall i x z, nth_error parts i = Some x ->
                                 JS.parseInt x = JS.Int z -> 0 <= z).
  { intros i x z Hn Hp. apply nth_error_In in Hn.
    apply split_parts_no_sep in Hn. eapply parseInt_nonneg; eassumption. }
  split; cbn [fst snd]; intros z Hz.
  - destruct (nth_error parts 0) as [x|] eqn:Hn; [|discriminate].
    eapply Hparts; eassumption.
  - destruct (nth_error parts 1) as [x|] eqn:Hn; [|discriminate].
    eapply Hparts; eassumption.
Qed.

Lemma rangeFields_both a b :
  is_bound a -> is_bound b ->
  rangeFields ("bytes=" ++ a ++ "-" ++ b)
  = (JS.Int (bound_value a), JS.Int (bound_value b)).
Proof.
  intros Ha Hb. unfold rangeFields.
  change (JS.replace "bytes=" "" ("bytes=" ++ a ++ "-" ++ b))
    with (a ++ String "-" b).
  rewrite split_app by (apply all_digits_no_minus, Ha).
  rewrite split_single by (apply all_digits_no_minus, Hb).
  cbn [nth_error JS.parseInt_opt]. now rewrite !parseInt_bound.
Qed.

Lemma rangeFields_suffix b :
  is_bound b -> rangeFields ("bytes=-" ++ b) = (JS.NaN, JS.Int (bound_value b)).
Proof.
  intros Hb. unfold rangeFields.
  change (JS.replace "bytes=" "" ("bytes=-" ++ b)) with ("" ++ String "-" b).
  rewrite split_app by reflexivity.
  rewrite split_single by (apply all_digits_no_minus, Hb).
  cbn [nth_error JS.parseInt_opt]. now rewrite (parseInt_bound b).
Qed.

Lemma rangeFields_prefix a :
  is_bound a -> rangeFields ("bytes=" ++ a ++ "-") = (JS.Int (bound_value a), JS.NaN).
Proof.
  intros Ha. unfold rangeFields.
  change (JS.replace "bytes=" "" ("bytes=" ++ a ++ "-"))
    with (a ++ String "-" "").
  rewrite split_app by (apply all_digits_no_minus, Ha).
  cbn [nth_error JS.parseInt_opt JS.split]. now rewrite (parseInt_bound a).
Qed.

(* ------------------------------------------------------------------ *)
(** ** Header objects and runs of the senders *)

Lemma get_set_same k v h : get_header k (set_header k v h) = Some v.
Proof.
  induction h as [|[k' v'] h IH]; simpl.
  - now rewrite String.eqb_refl.
  - destruct (String.eqb k k') eqn:E; simpl.
    + now rewrite String.eqb_refl.
    + now rewrite E.
Qed.

Lemma get_set_other k k' v h :
  String.eqb k k' = false ->
  get_header k (set_header k' v h) = get_header k h.
Proof.
  intros Hk. induction h as [|[k0 v0] h IH]; simpl.
  - now rewrite Hk.
  - destruct (String.eqb k' k0) eqn:E; simpl.
    + apply String.eqb_eq in E. subst k0. now rewrite Hk.
    + now rewrite IH.
Qed.

(** Unfold the monad and the response operations in a run. *)
Ltac run :=
  unfold sendErrorResponse, bind, lift, ret, log, writeHead, write_body,
    new_headers, assign_header, read_headers, try_catch in *;
  cbn [res headersObj trace head body fst snd] in *.

Lemma sendErrorResponse_fresh status message w :
  head (res w) = None ->
  sendErrorResponse status message w
  = (Ok tt, {| res := error_response status message;
               headersObj := headersObj w; trace := trace w |}).
Proof. intros H. run. now rewrite H. Qed.

Lemma sendErrorResponse_sent status message w :
  head (res w) <> None ->
  sendErrorResponse status message w = (Throw HeadersSent, w).
Proof. intros H. run. destruct (head (res w)); congruence. Qed.

(** An unsatisfiable range is answered through the error path. *)
Lemma sendRangeResponse_unsatisfiable P req filePath st w hdr :
  range (headers req) = Some hdr ->
  parseRange hdr (size st) = None ->
  head (res w) = None ->
  sendRangeResponse P req filePath st w
  = (Ok tt, {| res := error_response 416 "Range Not Satisfiable";
               headersObj := headersObj w;
               trace := trace w ++ [CallParseRange hdr (size st)] |}).
Proof.
  intros Hr Hp Hh. unfold sendRangeResponse. rewrite Hr, Hp. run.
  now rewrite Hh.
Qed.

(** A satisfiable range: the head is written with the two range headers
    assigned, before the stream is opened and before compression is
    decided. *)
Lemma sendRangeResponse_head P req filePath st w hdr r :
  range (headers req) = Some hdr ->
  parseRange hdr (size st) = Some r ->
  head (res w) = None ->
  head (res (snd (sendRangeResponse P req filePath st w)))
  = Some (206,
          set_header "Content-Length"
            (JS.toString (JS.add (JS.sub (end_ r) (start r)) (JS.Int 1)))
            (set_header "Content-Range"
               ("bytes " ++ JS.toString (start r) ++ "-"
                         ++ JS.toString (end_ r) ++ "/"
                         ++ JS.string_of_Z (size st))
               (headersObj w))).
Proof.
  intros Hr Hp Hh. unfold sendRangeResponse. rewrite Hr, Hp. run.
  rewrite Hh.
  destruct (createReadStream P filePath _); [|reflexivity].
  destruct (shouldCompress req filePath); reflexivity.
Qed.

(* ------------------------------------------------------------------ *)
(** ** Range negotiation *)

(** C2, as the data model states it, fails: reversed bounds are returned
    with [end < start], and a suffix longer than the file is returned with
    a negative [start]. *)
Lemma parseRange_breaks_ByteRange_inv :
  (exists r, parseRange "bytes=5-2" 10 = Some r /\ ~ ByteRange_inv 10 r)
  /\ (exists r, parseRange "bytes=-500" 100 = Some r /\ ~ ByteRange_inv 100 r).
Proof.
  split.
  - exists {| start := JS.Int 5; end_ := JS.Int 2 |}. split; [reflexivity|].
    intros (s & e & Hs & He & H). simpl in Hs, He.
    injection Hs as <-. injection He as <-. lia.
  - exists {| start := JS.Int (-400); end_ := JS.Int 99 |}. split; [reflexivity|].
    intros (s & e & Hs & He & H). simpl in Hs. injection Hs as <-. lia.
Qed.

(** C2 (amended). Whenever [parseRange] returns a range, [end] is an
    integer below the size and [start], when it is a number, is below the
    size; [start >= 0] whenever the start field of the header parses; and
    [end >= start] whenever one of the two fields is absent or does not
    parse (prefix and suffix forms). *)
Theorem parseRange_upper_bounds range size r :
  parseRange range size = Some r ->
  (exists e, end_ r = JS.Int e /\ e < size)
  /\ (forall s, start r = JS.Int s -> s < size)
  /\ (fst (rangeFields range) <> JS.NaN ->
      exists s, start r = JS.Int s /\ 0 <= s)
  /\ (fst (rangeFields range) = JS.NaN \/ snd (rangeFields range) = JS.NaN ->
      forall s e, start r = JS.Int s -> end_ r = JS.Int e -> s <= e).
Proof.
  rewrite parseRange_fields.
  destruct (rangeFields_nonneg range) as [Hs0 He0].
  destruct (rangeFields range) as [[|s0] [|e0]]; cbn [fst snd JS.sub JS.ge] in *;
    rewrite ?Z.geb_leb;
    repeat match goal with
           | |- context [?a <=? ?b] => destruct (Z.leb_spec a b)
           end; cbn [orb]; intros Hret; try discriminate Hret;
    injection Hret as <-; cbn [start end_];
    (split; [eexists; split; [reflexivity | lia]|]).
  - split; [discriminate|]. split; [congruence|]. discriminate.
  - split; [intros s [= <-]; lia|]. split; [congruence|].
    intros _ s e [= <-] [= <-]. lia.
  - split; [intros s [= <-]; lia|].
    split; [intros _; exists s0; split; [reflexivity | now apply Hs0]|].
    intros _ s e [= <-] [= <-]. lia.
  - split; [intros s [= <-]; lia|].
    split; [intros _; exists s0; split; [reflexivity | now apply Hs0]|].
    intros [|]; discriminate.
Qed.

Lemma parseRange_upper_bounds_witness :
  parseRange "bytes=0-99" 1000
  = Some {| start := JS.Int 0; end_ := JS.Int 99 |}
  /\ (exists e, JS.Int 99 = JS.Int e /\ e < 1000).
Proof.
  split; [reflexivity|].
  exact (proj1 (parseRange_upper_bounds "bytes=0-99" 1000
                  {| start := JS.Int 0; end_ := JS.Int 99 |} eq_refl)).
Defined.

(** C3, as stated, fails: a header whose end field does not parse is
    served as a prefix range (206); a header whose two fields do not parse
    is not found unsatisfiable either; and the 416 answer carries the text
    "Range Not Satisfiable". *)
Lemma malformed_range_served_and_416_has_body :
  JS.parseInt "abc" = JS.NaN
  /\ parseRange "bytes=5-abc" 102
     = Some {| start := JS.Int 5; end_ := JS.Int 101 |}
  /\ (exists h,
         head (Sample.respond
                 (Sample.get "/app.js"
                    (Sample.with_range "bytes=5-abc" Sample.plain)))
         = Some (206, h))
  /\ parseRange "bytes=abc-def" 102
     = Some {| start := JS.NaN; end_ := JS.Int 101 |}
  /\ (exists h,
         head (Sample.respond
                 (Sample.get "/app.js"
                    (Sample.with_range "bytes=abc-def" Sample.plain)))
         = Some (206, h))
  /\ Sample.respond
       (Sample.get "/app.js" (Sample.with_range "bytes=200-300" Sample.plain))
     = {| head := Some (416, [("Content-Type", "text/plain")]);
          body := Some (Text "Range Not Satisfiable") |}
  /\ Text "Range Not Satisfiable" <> Text "".
Proof.
  split; [reflexivity|]. split; [reflexivity|].
  split; [eexists; vm_compute; reflexivity|].
  split; [reflexivity|].
  split; [eexists; vm_compute; reflexivity|].
  split; [vm_compute; reflexivity | discriminate].
Qed.

(** C3 (amended). A field of the Range header that does not parse is read
    as an omitted bound: the suffix form when the start fails, the prefix
    form when only the end fails, for a file size and a parsed bound in
    the safe integer range, where the code's arithmetic on numbers is
    exact; and every range that [parseRange] finds unsatisfiable is
    answered 416 with content type text/plain and the body
    "Range Not Satisfiable". *)
Theorem unparsed_field_is_omitted_and_416_is_text :
  (forall range size e,
      safe_size size -> e <= MAX_SAFE_INTEGER ->
      rangeFields range = (JS.NaN, JS.Int e) ->
      parseRange range size = negotiate size (size - e) (size - 1)
      /\ - MAX_SAFE_INTEGER <= size - e <= MAX_SAFE_INTEGER)
  /\ (forall range size s,
         safe_size size -> s <= MAX_SAFE_INTEGER ->
         rangeFields range = (JS.Int s, JS.NaN) ->
         parseRange range size = negotiate size s (size - 1))
  /\ (forall P req filePath st w hdr,
         range (headers req) = Some hdr ->
         parseRange hdr (size st) = None ->
         head (res w) = None ->
         res (snd (sendRangeResponse P req filePath st w))
         = error_response 416 "Range Not Satisfiable").
Proof.
  split; [|split].
  - intros range size e Hsize He H. split.
    + rewrite parseRange_fields, H. reflexivity.
    + destruct (rangeFields_nonneg range) as [_ He0].
      rewrite H in He0. specialize (He0 e eq_refl).
      unfold safe_size in Hsize. lia.
  - intros range size s _ _ H. rewrite parseRange_fields, H. reflexivity.
  - intros P req filePath st w hdr Hr Hp Hh.
    now rewrite (sendRangeResponse_unsatisfiable P req filePath st w hdr).
Qed.

Lemma unparsed_field_is_omitted_and_416_is_text_witness :
  parseRange "bytes=abc-5" 10 = negotiate 10 (10 - 5) (10 - 1)
  /\ parseRange "bytes=5-abc" 10 = negotiate 10 5 (10 - 1)
  /\ res (snd (sendRangeResponse (Sample.platform Sample.disk)
                 (Sample.get "/app.js"
                    (Sample.with_range "bytes=200-300" Sample.plain))
                 "/srv/www/app.js"
                 {| size := 102; mtime := 0; isDirectory := false |} initial))
     = error_response 416 "Range Not Satisfiable".
Proof.
  destruct unparsed_field_is_omitted_and_416_is_text as (A & B & C).
  assert (S10 : safe_size 10) by (unfold safe_size, MAX_SAFE_INTEGER; lia).
  assert (S5 : 5 <= MAX_SAFE_INTEGER) by (unfold MAX_SAFE_INTEGER; lia).
  split; [|split].
  - apply (A "bytes=abc-5" 10 5 S10 S5). reflexivity.
  - apply (B "bytes=5-abc" 10 5 S10 S5). reflexivity.
  - apply (C _ _ _ _ _ "bytes=200-300"); reflexivity.
Defined.

(** Within the safe range nothing is rounded: the bounds of an accepted
    range, their difference and the length are safe integers. *)
Lemma parseRange_safe range size s e :
  safe_size size -> safe_fields range ->
  parseRange range size = Some {| start := JS.Int s; end_ := JS.Int e |} ->
  (- MAX_SAFE_INTEGER <= s <= MAX_SAFE_INTEGER)
  /\ (- MAX_SAFE_INTEGER <= e <= MAX_SAFE_INTEGER)
  /\ (- MAX_SAFE_INTEGER <= e - s <= MAX_SAFE_INTEGER)
  /\ (- MAX_SAFE_INTEGER <= e - s + 1 <= MAX_SAFE_INTEGER).
Proof.
  unfold safe_size, safe_fields. intros Hsize [Hf1 Hf2].
  rewrite parseRange_fields.
  destruct (rangeFields_nonneg range) as [Hs0 He0].
  destruct (rangeFields range) as [[|s0] [|e0]];
    cbn [fst snd JS.sub JS.ge safe_number] in *;
    rewrite ?Z.geb_leb;
    repeat match goal with
           | |- context [?a <=? ?b] => destruct (Z.leb_spec a b)
           end; cbn [orb]; intros Hret; try discriminate Hret;
    injection Hret as <- <-;
    try specialize (Hs0 _ eq_refl); try specialize (He0 _ eq_refl);
    unfold MAX_SAFE_INTEGER in *; lia.
Qed.

(** C5. On a file of [N] bytes, a well-formed header is read as follows:
    both bounds as given, the suffix form [bytes=-e] as
    [start = N - e, end = N - 1], the prefix form [bytes=s-] as
    [end = N - 1]; the range is rejected exactly when [start >= N] or
    [end >= N]; and an accepted range is answered 206 with
    [Content-Range: bytes start-end/N] and
    [Content-Length: end - start + 1].  The size is a safe integer, and so
    are the bound of the suffix form and the fields of the header behind
    the 206 head: there the numbers of the code are these integers, and
    they are printed in full. *)
Theorem range_forms_and_partial_headers :
  (forall a b N,
      safe_size N -> is_bound a -> is_bound b ->
      parseRange ("bytes=" ++ a ++ "-" ++ b) N
      = negotiate N (bound_value a) (bound_value b))
  /\ (forall b N,
         safe_size N -> is_bound b -> bound_value b <= MAX_SAFE_INTEGER ->
         parseRange ("bytes=-" ++ b) N
         = negotiate N (N - bound_value b) (N - 1)
         /\ - MAX_SAFE_INTEGER <= N - bound_value b <= MAX_SAFE_INTEGER)
  /\ (forall a N,
         safe_size N -> is_bound a ->
         parseRange ("bytes=" ++ a ++ "-") N
         = negotiate N (bound_value a) (N - 1))
  /\ (forall N s e,
         negotiate N s e = None <-> (s >= N \/ e >= N))
  /\ (forall P req filePath st w hdr s e,
         safe_size (size st) -> safe_fields hdr ->
         range (headers req) = Some hdr ->
         parseRange hdr (size st)
         = Some {| start := JS.Int s; end_ := JS.Int e |} ->
         head (res w) = None ->
         (exists h,
             head (res (snd (sendRangeResponse P req filePath st w)))
             = Some (206, h)
             /\ get_header "Content-Range" h
                = Some ("bytes " ++ JS.string_of_Z s ++ "-" ++ JS.string_of_Z e
                                 ++ "/" ++ JS.string_of_Z (size st))
             /\ get_header "Content-Length" h
                = Some (JS.string_of_Z (e - s + 1)))
         /\ (- MAX_SAFE_INTEGER <= s <= MAX_SAFE_INTEGER)
         /\ (- MAX_SAFE_INTEGER <= e <= MAX_SAFE_INTEGER)
         /\ (- MAX_SAFE_INTEGER <= e - s <= MAX_SAFE_INTEGER)
         /\ (- MAX_SAFE_INTEGER <= e - s + 1 <= MAX_SAFE_INTEGER)).
Proof.
  split; [|split; [|split; [|split]]].
  - intros a b N _ Ha Hb. now rewrite parseRange_fields, rangeFields_both.
  - intros b N HN Hb Hsafe. split.
    + now rewrite parseRange_fields, rangeFields_suffix.
    + assert (0 <= bound_value b).
      { apply (parseInt_nonneg b).
        - apply all_digits_no_minus, Hb.
        - now apply parseInt_bound. }
      unfold safe_size in HN. lia.
  - intros a N _ Ha. now rewrite parseRange_fields, rangeFields_prefix.
  - intros N s e. unfold negotiate. rewrite !Z.geb_leb.
    destruct (Z.leb_spec N s), (Z.leb_spec N e); cbn [orb];
      split; try discriminate; try reflexivity; lia.
  - intros P req filePath st w hdr s e Hsize Hfields Hr Hp Hh.
    split; [|exact (parseRange_safe hdr (size st) s e Hsize Hfields Hp)].
    eexists. split; [apply (sendRangeResponse_head P req filePath st w hdr _ Hr Hp Hh)|].
    cbn [start end_ JS.toString JS.add JS.sub]. split.
    + rewrite get_set_other by reflexivity. apply get_set_same.
    + apply get_set_same.
Qed.

Lemma range_forms_and_partial_headers_witness :
  parseRange ("bytes=" ++ "0" ++ "-" ++ "99") 1000 = negotiate 1000 0 99
  /\ parseRange ("bytes=-" ++ "10") 1000 = negotiate 1000 (1000 - 10) (1000 - 1)
  /\ parseRange ("bytes=" ++ "500" ++ "-") 1000 = negotiate 1000 500 (1000 - 1)
  /\ exists h,
       head (res (snd (sendRangeResponse (Sample.platform Sample.disk)
                         (Sample.get "/app.js"
                            (Sample.with_range "bytes=0-99" Sample.plain))
                         "/srv/www/app.js"
                         {| size := 102; mtime := 0; isDirectory := false |}
                         initial)))
       = Some (206, h)
       /\ get_header "Content-Range" h = Some "bytes 0-99/102"
       /\ get_header "Content-Length" h = Some "100".
Proof.
  destruct range_forms_and_partial_headers as (A & B & C & _ & D).
  assert (is0 : is_bound "0") by (split; [discriminate | reflexivity]).
  assert (is99 : is_bound "99") by (split; [discriminate | reflexivity]).
  assert (is10 : is_bound "10") by (split; [discriminate | reflexivity]).
  assert (is500 : is_bound "500") by (split; [discriminate | reflexivity]).
  assert (S1000 : safe_size 1000) by (unfold safe_size, MAX_SAFE_INTEGER; lia).
  assert (S102 : safe_size 102) by (unfold safe_size, MAX_SAFE_INTEGER; lia).
  assert (S10 : bound_value "10" <= MAX_SAFE_INTEGER)
    by (unfold MAX_SAFE_INTEGER; cbv; discriminate).
  assert (Sf : safe_fields "bytes=0-99")
    by (split; vm_compute; split; discriminate).
  split; [exact (A "0" "99" 1000 S1000 is0 is99)|].
  split; [exact (proj1 (B "10" 1000 S1000 is10 S10))|].
  split; [exact (C "500" 1000 S1000 is500)|].
  exact (proj1 (D (Sample.platform Sample.disk)
           (Sample.get "/app.js" (Sample.with_range "bytes=0-99" Sample.plain))
           "/srv/www/app.js"
           {| size := 102; mtime := 0; isDirectory := false |}
           initial "bytes=0-99" 0 99 S102 Sf eq_refl eq_refl eq_refl)).
Defined.

(* ------------------------------------------------------------------ *)
(** ** Path resolution *)

Lemma normalize_nonempty p : Path.normalize p <> "".
Proof.
  unfold Path.normalize. destruct p as [|c r]; [discriminate|].
  destruct (Ascii.eqb c "/"); cbn [negb]; [discriminate|].
  destruct (Path.normalizeString (String c r) true) as [|d q];
    destruct (Path.endsWithSlash (String c r)); discriminate.
Qed.

Lemma falsy_Some s : s <> "" -> falsy (Some s) = false.
Proof. intros H. simpl. now apply String.eqb_neq. Qed.

(** What [getRequestPath] computes once the URL parses and decodes: the
    prefix test is made on the decoded, joined and normalized path. *)
Lemma getRequestPath_decided P config req u h pathname decoded :
  url req = Some u -> u <> "" ->
  host (headers req) = Some h -> h <> "" ->
  url_pathname P u ("http://" ++ h) = Ok pathname ->
  decodeURIComponent P pathname = Ok decoded ->
  getRequestPath P config req
  = Ok (if JS.startsWith
             (Path.normalize (Path.join [root config; decoded])) (root config)
        then Some (Path.normalize (Path.join [root config; decoded]))
        else None).
Proof.
  intros Hu Hu0 Hh Hh0 Hp Hd. unfold getRequestPath.
  rewrite Hu, Hh, (falsy_Some u Hu0), (falsy_Some h Hh0).
  cbn [orb]. rewrite Hp. cbn [bindR]. rewrite Hd. reflexivity.
Qed.

(** A resolved path comes from a request with a URL and a host, whose path
    name parsed and decoded; it is never empty. *)
Lemma getRequestPath_Some P config req p :
  getRequestPath P config req = Ok (Some p) ->
  p <> "" /\
  exists u h pathname,
    url req = Some u /\ host (headers req) = Some h /\
    url_pathname P u ("http://" ++ h) = Ok pathname.
Proof.
  unfold getRequestPath.
  destruct (url req) as [u|]; [|discriminate].
  destruct (host (headers req)) as [h|]; [|discriminate].
  destruct (falsy (Some u) || falsy (Some h)); [discriminate|].
  destruct (url_pathname P u ("http://" ++ h)) as [pathname|] eqn:Hp;
    [|discriminate].
  cbn [bindR].
  destruct (decodeURIComponent P pathname) as [decoded|]; [|discriminate].
  cbn [bindR].
  destruct (JS.startsWith _ _); [|discriminate].
  intros [= <-]. split; [apply normalize_nonempty|].
  now exists u, h, pathname.
Qed.

(** C1. When the percent-decoded path of the request, joined onto the
    root and normalized, does not begin with the root, [getRequestPath]
    returns the rejected sentinel and the server answers 403; the test is
    made on the normalized path, after decoding. *)
Theorem escaping_path_is_rejected_403 P config req u h pathname decoded :
  url req = Some u -> u <> "" ->
  host (headers req) = Some h -> h <> "" ->
  url_pathname P u ("http://" ++ h) = Ok pathname ->
  decodeURIComponent P pathname = Ok decoded ->
  JS.startsWith (Path.normalize (Path.join [root config; decoded]))
                (root config) = false ->
  getRequestPath P config req = Ok None
  /\ handleRequest P config req initial
     = (Ok tt, {| res := error_response 403 "403 Forbidden";
                  headersObj := []; trace := [] |}).
Proof.
  intros Hu Hu0 Hh Hh0 Hp Hd Hout.
  assert (Hnone : getRequestPath P config req = Ok None).
  { rewrite (getRequestPath_decided P config req u h pathname decoded)
      by assumption.
    now rewrite Hout. }
  split; [assumption|].
  unfold handleRequest. run. rewrite Hnone. reflexivity.
Qed.

Lemma escaping_path_is_rejected_403_witness :
  JS.includes "/..%2f..%2fetc/passwd" "../" = false
  /\ getRequestPath (Sample.platform Sample.disk) Sample.config
       (Sample.get "/..%2f..%2fetc/passwd" Sample.plain) = Ok None
  /\ Sample.serve (Sample.get "/..%2f..%2fetc/passwd" Sample.plain)
     = (Ok tt, {| res := error_response 403 "403 Forbidden";
                  headersObj := []; trace := [] |}).
Proof.
  split; [reflexivity|].
  apply (escaping_path_is_rejected_403 (Sample.platform Sample.disk)
           Sample.config (Sample.get "/..%2f..%2fetc/passwd" Sample.plain)
           "/..%2f..%2fetc/passwd" "localhost:3000"
           "/..%2f..%2fetc/passwd" "/../../etc/passwd");
    try reflexivity; discriminate.
Defined.

(* ------------------------------------------------------------------ *)
(** ** Metadata probes and the error mapping *)

Lemma getPathStats_found P p st :
  stat P p = Ok st -> getPathStats P p = Ok (Some st).
Proof. intros H. unfold getPathStats. now rewrite H. Qed.

Lemma getPathStats_absent P p :
  stat P p = Throw (FsError "ENOENT") -> getPathStats P p = Ok None.
Proof. intros H. unfold getPathStats. now rewrite H. Qed.

Lemma getPathStats_rethrows P p e :
  stat P p = Throw e -> e <> FsError "ENOENT" -> getPathStats P p = Throw e.
Proof.
  intros H Hne. unfold getPathStats. rewrite H.
  destruct e as [code| | | |]; try reflexivity.
  destruct (String.eqb code "ENOENT") eqn:E; [|reflexivity].
  apply String.eqb_eq in E. congruence.
Qed.

(** C9, as stated for every probe, fails on the probe of the index file: a
    directory without [index.html] is answered with a generated listing,
    status 200. *)
Lemma absent_index_is_listed_not_404 :
  stat (Sample.platform Sample.disk) "/srv/www/docs/index.html"
  = Throw (FsError "ENOENT")
  /\ getPathStats (Sample.platform Sample.disk) "/srv/www/docs/index.html"
     = Ok None
  /\ head (Sample.respond (Sample.get "/docs" Sample.plain))
     = Some (200, [("Content-Type", "text/html")]).
Proof. repeat split; reflexivity. Qed.

(** C9 (amended). A probe that finds nothing is not an error: ENOENT is
    turned into the absent result inside [getPathStats], every other
    failure is thrown again.  For the probe of the requested path, absent
    is answered 404; for either probe, any other failure reaches the
    handler's catch and is answered 500; an absent index file leads to the
    directory listing (200) or to 403. *)
Theorem probe_errors_are_mapped P config req p :
  getRequestPath P config req = Ok (Some p) ->
  (stat P p = Throw (FsError "ENOENT") ->
   getPathStats P p = Ok None
   /\ handleRequest P config req initial
      = (Ok tt, {| res := error_response 404 "404 Not Found";
                   headersObj := []; trace := [] |}))
  /\ (forall e,
         stat P p = Throw e -> e <> FsError "ENOENT" ->
         getPathStats P p = Throw e
         /\ handleRequest P config req initial
            = (Ok tt, {| res := error_response 500 "500 Internal Server Error";
                         headersObj := []; trace := [] |}))
  /\ (forall d e,
         stat P p = Ok d -> isDirectory d = true ->
         stat P (Path.join [p; index config]) = Throw e ->
         e <> FsError "ENOENT" ->
         handleRequest P config req initial
         = (Ok tt, {| res := error_response 500 "500 Internal Server Error";
                      headersObj := []; trace := [] |}))
  /\ (forall d,
         stat P p = Ok d -> isDirectory d = true ->
         stat P (Path.join [p; index config]) = Throw (FsError "ENOENT") ->
         exists r,
           handleRequest P config req initial
           = (Ok tt, {| res := r; headersObj := []; trace := [] |})
           /\ (r = error_response 403 "403 Forbidden"
               \/ exists html,
                    r = {| head := Some (200, [("Content-Type", "text/html")]);
                           body := Some (Text html) |})).
Proof.
  intros Hpath.
  destruct (getRequestPath_Some P config req p Hpath)
    as (Hp0 & u & h & pathname & Hu & Hh & Hurl).
  split; [|split; [|split]].
  - intros Hstat. split; [now apply getPathStats_absent|].
    unfold handleRequest. run.
    rewrite Hpath, (falsy_Some p Hp0), (getPathStats_absent P p Hstat).
    reflexivity.
  - intros e Hstat Hne. split; [now apply getPathStats_rethrows|].
    unfold handleRequest. run.
    rewrite Hpath, (falsy_Some p Hp0), (getPathStats_rethrows P p e Hstat Hne).
    reflexivity.
  - intros d e Hstat Hdir Hidx Hne.
    unfold handleRequest. run.
    rewrite Hpath, (falsy_Some p Hp0), (getPathStats_found P p d Hstat), Hdir,
      (getPathStats_rethrows P _ e Hidx Hne).
    reflexivity.
  - intros d Hstat Hdir Hidx.
    unfold handleRequest. run.
    rewrite Hpath, (falsy_Some p Hp0), (getPathStats_found P p d Hstat), Hdir,
      (getPathStats_absent P _ Hidx), Hu, Hh, Hurl.
    destruct (generateDirectoryIndex P p pathname) as [html|].
    + destruct (String.eqb html "").
      * eexists. split; [reflexivity|]. now left.
      * eexists. split; [reflexivity|]. right. now exists html.
    + eexists. split; [reflexivity|]. now left.
Qed.

Lemma probe_errors_are_mapped_witness :
  Sample.serve (Sample.get "/nothing" Sample.plain)
  = (Ok tt, {| res := error_response 404 "404 Not Found";
               headersObj := []; trace := [] |})
  /\ Sample.serve (Sample.get "/locked" Sample.plain)
     = (Ok tt, {| res := error_response 500 "500 Internal Server Error";
                  headersObj := []; trace := [] |}).
Proof.
  split.
  - apply (proj1 (probe_errors_are_mapped (Sample.platform Sample.disk)
                    Sample.config (Sample.get "/nothing" Sample.plain)
                    "/srv/www/nothing" eq_refl)).
    reflexivity.
  - apply (proj1 (proj2 (probe_errors_are_mapped (Sample.platform Sample.disk)
                    Sample.config (Sample.get "/locked" Sample.plain)
                    "/srv/www/locked" eq_refl)) (FsError "EACCES")).
    + reflexivity.
    + discriminate.
Defined.

(* ------------------------------------------------------------------ *)
(** ** Cache validation *)

(** C4. For a request that resolves to a file, when [If-None-Match]
    equals the fingerprint or [If-Modified-Since] equals the formatted
    modification time, the answer is 304 with an empty body, and the run
    ends there: no range is parsed, compression is not consulted, no
    stream is opened. *)
Theorem cache_hit_short_circuits P config req p filePath st etag :
  getRequestPath P config req = Ok (Some p) ->
  resolves P config p filePath st ->
  getETag P filePath st = Ok etag ->
  if_none_match (headers req) = Some etag
  \/ if_modified_since (headers req) = Some (toUTCString P (mtime st)) ->
  exists h,
    handleRequest P config req initial
    = (Ok tt, {| res := {| head := Some (304, []); body := Some (Text "") |};
                 headersObj := h; trace := [] |}).
Proof.
  intros Hpath Hres Hetag Hmatch.
  destruct (getRequestPath_Some P config req p Hpath) as (Hp0 & _).
  assert (Hcached :
            header_is (if_none_match (headers req)) etag
            || header_is (if_modified_since (headers req))
                         (toUTCString P (mtime st)) = true).
  { destruct Hmatch as [H|H]; rewrite H; cbn [header_is];
      rewrite String.eqb_refl; [reflexivity | apply orb_true_r]. }
  destruct Hres as [st Hstat Hdir | d st Hstat Hdir Hidx];
    unfold handleRequest; run;
    rewrite Hpath, (falsy_Some p Hp0), (getPathStats_found P p _ Hstat), Hdir;
    [| rewrite (getPathStats_found P _ _ Hidx)];
    unfold serveFile, getResponseHeaders; run;
    rewrite Hetag, Hcached; eexists; reflexivity.
Qed.

Lemma cache_hit_short_circuits_witness :
  exists h,
    Sample.serve
      (Sample.get "/app.js"
         (Sample.with_etag "98c44c2818af753d938b5de9bedf966b"
            (Sample.with_encoding "gzip"
               (Sample.with_range "bytes=0-9" Sample.plain))))
    = (Ok tt, {| res := {| head := Some (304, []); body := Some (Text "") |};
                 headersObj := h; trace := [] |}).
Proof.
  apply (cache_hit_short_circuits (Sample.platform Sample.disk) Sample.config
           _ "/srv/www/app.js" "/srv/www/app.js"
           {| size := 102; mtime := 784887151000; isDirectory := false |}
           "98c44c2818af753d938b5de9bedf966b").
  - reflexivity.
  - apply resolves_file; reflexivity.
  - vm_compute. reflexivity.
  - left. reflexivity.
Defined.

Example cache_hit_by_date :
  Sample.respond
    (Sample.get "/site"
       (Sample.with_since "Tue, 29 Feb 2000 00:00:00 GMT" Sample.plain))
  = {| head := Some (304, []); body := Some (Text "") |}.
Proof. vm_compute. reflexivity. Qed.

(* ------------------------------------------------------------------ *)
(** ** Compression on the two sending paths *)

Lemma resolves_functional P config p f1 st1 f2 st2 :
  resolves P config p f1 st1 -> resolves P config p f2 st2 ->
  f1 = f2 /\ st1 = st2.
Proof.
  intros [s1 H1 D1 | d1 s1 H1 D1 I1] [s2 H2 D2 | d2 s2 H2 D2 I2];
    try congruence.
  - split; congruence.
  - split; congruence.
Qed.

(** Case analysis on a scrutinee of [H] that contains no other one. *)
Ltac case_inner H :=
  match type of H with
  | context [match ?x with _ => _ end] =>
      lazymatch x with
      | context [match _ with _ => _ end] => fail
      | _ => destruct x eqn:?
      end
  end.

Lemma gzipped_fresh w :
  head (res w) = None -> body (res w) = None -> gzipped (res w) = false.
Proof. intros Hh Hb. unfold gzipped. now rewrite Hh, Hb. Qed.

Lemma gzipped_plain status h b :
  get_header "Content-Encoding" h = None ->
  match b with Some (Stream _ _ true) => False | _ => True end ->
  gzipped {| head := Some (status, h); body := b |} = false.
Proof.
  intros Hh Hb. unfold gzipped. cbn [head body]. rewrite Hh.
  destruct b as [[t|f sl []]|]; (reflexivity || destruct Hb).
Qed.

Lemma sendFileResponse_gzip_decided P req filePath st w r w' :
  head (res w) = None -> body (res w) = None ->
  get_header "Content-Encoding" (headersObj w) = None ->
  sendFileResponse P req filePath st w = (r, w') ->
  gzipped (res w') = true ->
  shouldCompress req filePath = true.
Proof.
  intros Hh Hb Hnone Hrun Hz. unfold sendFileResponse in Hrun. run.
  destruct (createReadStream P filePath None) as [[]|e].
  - destruct (shouldCompress req filePath); [reflexivity|].
    run. rewrite Hh in Hrun. injection Hrun as <- <-. cbn [res] in Hz.
    rewrite gzipped_plain in Hz; [discriminate Hz| |exact I].
    now rewrite get_set_other by reflexivity.
  - injection Hrun as <- <-. cbn [res] in Hz.
    now rewrite gzipped_fresh in Hz.
Qed.

Lemma sendRangeResponse_gzip_decided P req filePath st w r w' :
  head (res w) = None -> body (res w) = None ->
  get_header "Content-Encoding" (headersObj w) = None ->
  sendRangeResponse P req filePath st w = (r, w') ->
  gzipped (res w') = true ->
  shouldCompress req filePath = true.
Proof.
  intros Hh Hb Hnone Hrun Hz. unfold sendRangeResponse in Hrun. run.
  destruct (parseRange _ (size st)) as [rangeVal|].
  - run. rewrite Hh in Hrun.
    assert (Hsent :
              get_header "Content-Encoding"
                (set_header "Content-Length"
                   (JS.toString
                      (JS.add (JS.sub (end_ rangeVal) (start rangeVal))
                              (JS.Int 1)))
                   (set_header "Content-Range"
                      ("bytes " ++ JS.toString (start rangeVal) ++ "-"
                                ++ JS.toString (end_ rangeVal) ++ "/"
                                ++ JS.string_of_Z (size st))
                      (headersObj w))) = None)
      by now rewrite !get_set_other by reflexivity.
    destruct (createReadStream P filePath _) as [[]|e].
    + destruct (shouldCompress req filePath); [reflexivity|].
      run. injection Hrun as <- <-. cbn [res] in Hz.
      rewrite gzipped_plain in Hz; [discriminate Hz|exact Hsent|exact I].
    + injection Hrun as <- <-. cbn [res] in Hz.
      rewrite gzipped_plain in Hz; [discriminate Hz|exact Hsent|].
      now rewrite Hb.
  - run. rewrite Hh in Hrun. injection Hrun as <- <-. discriminate Hz.
Qed.

(** Whatever way a run of [serveFile] ends, a response that says or is
    gzip was decided by [shouldCompress]. *)
Lemma serveFile_gzip_decided P req filePath st w r w' :
  head (res w) = None -> body (res w) = None ->
  serveFile P req filePath st w = (r, w') ->
  gzipped (res w') = true ->
  shouldCompress req filePath = true.
Proof.
  intros Hh Hb Hrun Hz.
  unfold serveFile, getResponseHeaders in Hrun. run.
  destruct (getETag P filePath st) as [etag|e].
  - destruct (header_is _ etag || header_is _ _).
    + run. rewrite Hh in Hrun. injection Hrun as <- <-. discriminate Hz.
    + destruct (negb (falsy (range (headers req)))).
      * eapply sendRangeResponse_gzip_decided; [| | |exact Hrun|exact Hz];
          [exact Hh | exact Hb | reflexivity].
      * eapply sendFileResponse_gzip_decided; [| | |exact Hrun|exact Hz];
          [exact Hh | exact Hb | reflexivity].
  - injection Hrun as <- <-. now rewrite gzipped_fresh in Hz.
Qed.

(** The full-file path: the encoding is assigned before the head is
    written. *)
Lemma sendFileResponse_compressed P req filePath st w :
  shouldCompress req filePath = true ->
  createReadStream P filePath None = Ok tt ->
  head (res w) = None ->
  sendFileResponse P req filePath st w
  = (Ok tt,
     {| res := {| head := Some (200, set_header "Content-Encoding" "gzip"
                                       (headersObj w));
                  body := Some (Stream filePath None true) |};
        headersObj := set_header "Content-Encoding" "gzip" (headersObj w);
        trace := ((trace w ++ [CallCreateReadStream filePath None])
                    ++ [CallShouldCompress filePath])
                   ++ [CallCompressStream] |}).
Proof.
  intros Hc Hs Hh. unfold sendFileResponse. run. rewrite Hs, Hc. run.
  now rewrite Hh.
Qed.

Lemma header_is_other h s : h <> Some s -> header_is h s = false.
Proof.
  intros H. destruct h as [v|]; [|reflexivity]. cbn [header_is].
  apply String.eqb_neq. congruence.
Qed.

(** A request for a compressible file, without a range and without a
    valid cached copy, from a client that accepts gzip. *)
Lemma handleRequest_full_compressed P config req p filePath st etag :
  getRequestPath P config req = Ok (Some p) ->
  resolves P config p filePath st ->
  shouldCompress req filePath = true ->
  range (headers req) = None ->
  getETag P filePath st = Ok etag ->
  if_none_match (headers req) <> Some etag ->
  if_modified_since (headers req) <> Some (toUTCString P (mtime st)) ->
  createReadStream P filePath None = Ok tt ->
  exists h,
    res (snd (handleRequest P config req initial))
    = {| head := Some (200, h); body := Some (Stream filePath None true) |}
    /\ get_header "Content-Encoding" h = Some "gzip".
Proof.
  intros Hpath Hres Hc Hrange Hetag Hnm Hims Hs.
  destruct (getRequestPath_Some P config req p Hpath) as (Hp0 & _).
  destruct Hres as [st Hstat Hdir | d st Hstat Hdir Hidx];
    unfold handleRequest; run;
    rewrite Hpath, (falsy_Some p Hp0), (getPathStats_found P p _ Hstat), Hdir;
    [| rewrite (getPathStats_found P _ _ Hidx)];
    unfold serveFile, getResponseHeaders; run;
    rewrite Hetag, (header_is_other _ _ Hnm), (header_is_other _ _ Hims), Hrange;
    cbn [orb falsy negb];
    rewrite sendFileResponse_compressed by (assumption || reflexivity);
    (eexists; split; [reflexivity | apply get_set_same]).
Qed.

(** The ranged path: the head is written first, so the encoding assigned
    afterwards reaches the [headers] object only. *)
Lemma sendRangeResponse_compressed P req filePath st w hdr r :
  range (headers req) = Some hdr ->
  parseRange hdr (size st) = Some r ->
  shouldCompress req filePath = true ->
  createReadStream P filePath (Some (start r, end_ r)) = Ok tt ->
  head (res w) = None ->
  get_header "Content-Encoding" (headersObj w) = None ->
  exists h,
    res (snd (sendRangeResponse P req filePath st w))
    = {| head := Some (206, h);
         body := Some (Stream filePath (Some (start r, end_ r)) true) |}
    /\ get_header "Content-Encoding" h = None
    /\ get_header "Content-Length" h
       = Some (JS.toString (JS.add (JS.sub (end_ r) (start r)) (JS.Int 1)))
    /\ get_header "Content-Encoding"
         (headersObj (snd (sendRangeResponse P req filePath st w)))
       = Some "gzip".
Proof.
  intros Hr Hp Hc Hs Hh Hnone. unfold sendRangeResponse. rewrite Hr, Hp. run.
  rewrite Hh, Hs, Hc. run. eexists. split; [reflexivity|].
  split; [|split].
  - now rewrite !get_set_other by reflexivity.
  - apply get_set_same.
  - apply get_set_same.
Qed.

(** C6 does not hold of the code.  A ranged request for a compressible
    file from a client that accepts gzip: the 206 head carries the length
    of the raw range and no [Content-Encoding], the body is the gzip
    stream, and the encoding shows up only in the [headers] object, after
    the head was written. *)
Theorem ranged_gzip_head_lacks_content_encoding :
  let req := Sample.get "/app.js"
               (Sample.with_encoding "gzip"
                  (Sample.with_range "bytes=0-9" Sample.plain)) in
  shouldCompress req "/srv/www/app.js" = true
  /\ parseRange "bytes=0-9" 102
     = Some {| start := JS.Int 0; end_ := JS.Int 9 |}
  /\ exists h,
       Sample.respond req
       = {| head := Some (206, h);
            body := Some (Stream "/srv/www/app.js"
                                 (Some (JS.Int 0, JS.Int 9)) true) |}
       /\ get_header "Content-Encoding" h = None
       /\ get_header "Content-Length" h = Some "10"
       /\ get_header "Content-Encoding" (headersObj (snd (Sample.serve req)))
          = Some "gzip".
Proof.
  cbv zeta. split; [reflexivity|]. split; [reflexivity|].
  eexists. split; [vm_compute; reflexivity|].
  repeat split; vm_compute; reflexivity.
Qed.

(** The same request without a range: here the head does carry the
    encoding, and no length. *)
Example full_gzip_head_has_content_encoding :
  exists h,
    Sample.respond (Sample.get "/app.js" (Sample.with_encoding "gzip" Sample.plain))
    = {| head := Some (200, h);
         body := Some (Stream "/srv/www/app.js" None true) |}
    /\ get_header "Content-Encoding" h = Some "gzip"
    /\ get_header "Content-Length" h = None.
Proof.
  eexists. split; [vm_compute; reflexivity|]. split; reflexivity.
Qed.

(** The response of any run of the handler that says or is gzip was
    decided by [shouldCompress] on the file the request resolves to. *)
Lemma handleRequest_gzip_decided P config req r w' :
  handleRequest P config req initial = (r, w') ->
  gzipped (res w') = true ->
  exists p filePath st,
    getRequestPath P config req = Ok (Some p)
    /\ resolves P config p filePath st
    /\ shouldCompress req filePath = true.
Proof.
  intros Hrun Hz. unfold handleRequest in Hrun.
  unfold try_catch, bind at 1, lift at 1 in Hrun.
  destruct (getRequestPath P config req) as [[p|]|e] eqn:Hpath;
    [| vm_compute in Hrun; injection Hrun as <- <-; discriminate Hz
     | vm_compute in Hrun; injection Hrun as <- <-; discriminate Hz].
  destruct (getRequestPath_Some P config req p Hpath) as (Hp0 & _).
  rewrite (falsy_Some p Hp0) in Hrun.
  unfold bind at 1, lift at 1 in Hrun. unfold getPathStats in Hrun.
  assert (Hcatch : forall (m : M unit) filePath st,
             resolves P config p filePath st ->
             m = serveFile P req filePath st ->
             (let (y, w1) := m initial in
              match y with
              | Ok a => (Ok a, w1)
              | Throw _ => sendErrorResponse 500 "500 Internal Server Error" w1
              end) = (r, w') ->
             shouldCompress req filePath = true).
  { intros m filePath st Hres -> H.
    destruct (serveFile P req filePath st initial) as [y w1] eqn:Hserve.
    assert (Hg : gzipped (res w1) = true -> shouldCompress req filePath = true)
      by (eapply serveFile_gzip_decided; [| |exact Hserve]; reflexivity).
    destruct y as [[]|e].
    - injection H as <- <-. auto.
    - destruct (head (res w1)) as [hd|] eqn:Hhd.
      + rewrite sendErrorResponse_sent in H by congruence.
        injection H as <- <-. auto.
      + rewrite sendErrorResponse_fresh in H by assumption.
        injection H as <- <-. discriminate Hz. }
  destruct (stat P p) as [st|e] eqn:Hstat.
  - destruct (isDirectory st) eqn:Hdir.
    + unfold bind at 1, lift at 1 in Hrun. unfold getPathStats in Hrun.
      destruct (stat P (Path.join [p; index config])) as [st'|e] eqn:Hidx.
      * exists p, (Path.join [p; index config]), st'.
        split; [reflexivity|].
        assert (Hres : resolves P config p (Path.join [p; index config]) st')
          by (eapply resolves_index; eassumption).
        split; [assumption|]. eapply Hcatch; [exact Hres | reflexivity | exact Hrun].
      * exfalso. run.
        repeat case_inner Hrun;
          injection Hrun as <- <-; discriminate Hz.
    + exists p, p, st. split; [reflexivity|].
      assert (Hres : resolves P config p p st)
        by (eapply resolves_file; eassumption).
      split; [assumption|]. eapply Hcatch; [exact Hres | reflexivity | exact Hrun].
  - exfalso. run.
    repeat case_inner Hrun;
      injection Hrun as <- <-; discriminate Hz.
Qed.

(** C7. A response is gzip (its head says so or its body went through the
    compressor) only when the request's [Accept-Encoding] contains "gzip"
    and the extension of the file it resolves to is in the allow-list; a
    request that resolves to a [.png] file never gets it; a [.js] file
    sent in full to a client that accepts gzip is sent compressed with
    [Content-Encoding: gzip], by [sendFileResponse] and so by the handler
    for a request without a range and without a valid cached copy. *)
Theorem gzip_only_when_accepted_and_listed :
  (forall P config req r w',
      handleRequest P config req initial = (r, w') ->
      gzipped (res w') = true ->
      exists p filePath st ae,
        getRequestPath P config req = Ok (Some p)
        /\ resolves P config p filePath st
        /\ accept_encoding (headers req) = Some ae
        /\ JS.includes ae "gzip" = true
        /\ In (JS.toLowerCase (Path.extname filePath)) compressibleExtensions)
  /\ (forall P config req p filePath st r w',
         getRequestPath P config req = Ok (Some p) ->
         resolves P config p filePath st ->
         JS.toLowerCase (Path.extname filePath) = ".png" ->
         handleRequest P config req initial = (r, w') ->
         gzipped (res w') = false)
  /\ (forall P req filePath st w ae,
         JS.toLowerCase (Path.extname filePath) = ".js" ->
         accept_encoding (headers req) = Some ae ->
         JS.includes ae "gzip" = true ->
         createReadStream P filePath None = Ok tt ->
         head (res w) = None ->
         exists h,
           res (snd (sendFileResponse P req filePath st w))
           = {| head := Some (200, h);
                body := Some (Stream filePath None true) |}
           /\ get_header "Content-Encoding" h = Some "gzip")
  /\ (forall P config req p filePath st etag ae,
         getRequestPath P config req = Ok (Some p) ->
         resolves P config p filePath st ->
         JS.toLowerCase (Path.extname filePath) = ".js" ->
         accept_encoding (headers req) = Some ae ->
         JS.includes ae "gzip" = true ->
         range (headers req) = None ->
         getETag P filePath st = Ok etag ->
         if_none_match (headers req) <> Some etag ->
         if_modified_since (headers req) <> Some (toUTCString P (mtime st)) ->
         createReadStream P filePath None = Ok tt ->
         exists h,
           res (snd (handleRequest P config req initial))
           = {| head := Some (200, h);
                body := Some (Stream filePath None true) |}
           /\ get_header "Content-Encoding" h = Some "gzip").
Proof.
  assert (Hjs : forall req filePath ae,
             JS.toLowerCase (Path.extname filePath) = ".js" ->
             accept_encoding (headers req) = Some ae ->
             JS.includes ae "gzip" = true ->
             shouldCompress req filePath = true).
  { intros req filePath ae Hext Hae Hinc.
    apply shouldCompress_true_iff. split; [now exists ae|].
    rewrite Hext. simpl. tauto. }
  split; [|split; [|split]].
  - intros P config req r w' Hrun Hz.
    destruct (handleRequest_gzip_decided P config req r w' Hrun Hz)
      as (p & filePath & st & Hpath & Hres & Hc).
    apply shouldCompress_true_iff in Hc. destruct Hc as [[ae [Hae Hinc]] Hin].
    now exists p, filePath, st, ae.
  - intros P config req p filePath st r w' Hpath Hres Hext Hrun.
    destruct (gzipped (res w')) eqn:Hz; [|reflexivity].
    destruct (handleRequest_gzip_decided P config req r w' Hrun Hz)
      as (p' & filePath' & st' & Hpath' & Hres' & Hc).
    assert (p' = p) by congruence. subst p'.
    destruct (resolves_functional P config p _ _ _ _ Hres Hres') as [<- _].
    apply shouldCompress_true_iff in Hc. destruct Hc as [_ Hin].
    rewrite Hext in Hin. simpl in Hin.
    repeat (destruct Hin as [Hin|Hin]; [discriminate Hin|]). destruct Hin.
  - intros P req filePath st w ae Hext Hae Hinc Hs Hh.
    rewrite (sendFileResponse_compressed P req filePath st w
               (Hjs _ _ _ Hext Hae Hinc) Hs Hh).
    eexists. split; [reflexivity | apply get_set_same].
  - intros P config req p filePath st etag ae
           Hpath Hres Hext Hae Hinc Hrange Hetag Hnm Hims Hs.
    eapply handleRequest_full_compressed; eauto.
Qed.

Lemma gzip_only_when_accepted_and_listed_witness :
  gzipped (Sample.respond
             (Sample.get "/logo.png" (Sample.with_encoding "gzip" Sample.plain)))
  = false
  /\ (exists h,
         res (snd (sendFileResponse (Sample.platform Sample.disk)
                     (Sample.get "/app.js" (Sample.with_encoding "gzip" Sample.plain))
                     "/srv/www/app.js"
                     {| size := 102; mtime := 784887151000;
                        isDirectory := false |} initial))
         = {| head := Some (200, h);
              body := Some (Stream "/srv/www/app.js" None true) |}
         /\ get_header "Content-Encoding" h = Some "gzip")
  /\ (exists h,
         Sample.respond
           (Sample.get "/app.js" (Sample.with_encoding "gzip" Sample.plain))
         = {| head := Some (200, h);
              body := Some (Stream "/srv/www/app.js" None true) |}
         /\ get_header "Content-Encoding" h = Some "gzip").
Proof.
  destruct gzip_only_when_accepted_and_listed as (_ & B & C & D).
  split; [|split].
  - apply (B (Sample.platform Sample.disk) Sample.config
             (Sample.get "/logo.png" (Sample.with_encoding "gzip" Sample.plain))
             "/srv/www/logo.png" "/srv/www/logo.png"
             {| size := 9; mtime := 784887151000; isDirectory := false |}
             (fst (Sample.serve
                     (Sample.get "/logo.png"
                        (Sample.with_encoding "gzip" Sample.plain))))
             (snd (Sample.serve
                     (Sample.get "/logo.png"
                        (Sample.with_encoding "gzip" Sample.plain))))).
    + reflexivity.
    + apply resolves_file; reflexivity.
    + reflexivity.
    + unfold Sample.serve. now destruct (handleRequest _ _ _ _).
  - apply (C (Sample.platform Sample.disk) _ "/srv/www/app.js" _ initial "gzip");
      reflexivity.
  - apply (D (Sample.platform Sample.disk) Sample.config
             (Sample.get "/app.js" (Sample.with_encoding "gzip" Sample.plain))
             "/srv/www/app.js" "/srv/www/app.js"
             {| size := 102; mtime := 784887151000; isDirectory := false |}
             "98c44c2818af753d938b5de9bedf966b" "gzip");
      try reflexivity; try discriminate.
    apply resolves_file; reflexivity.
Defined.

(* ------------------------------------------------------------------ *)
(** ** Fingerprints *)

(** C8, read as "changes exactly when the bytes change", fails: two
    different contents of 128 bytes get the same fingerprint. *)
Lemma distinct_contents_share_a_fingerprint :
  twin_a <> twin_b
  /\ String.length twin_a = 128%nat /\ String.length twin_b = 128%nat
  /\ getETag (Sample.platform [("/f", Sample.File twin_a 0)]) "/f"
       {| size := 128; mtime := 0; isDirectory := false |}
     = Ok "79054025255fb1a26e4bc422aef54eb4"
  /\ getETag (Sample.platform [("/f", Sample.File twin_b 0)]) "/f"
       {| size := 128; mtime := 0; isDirectory := false |}
     = Ok "79054025255fb1a26e4bc422aef54eb4".
Proof.
  split.
  - apply String.eqb_neq. vm_compute. reflexivity.
  - repeat split; vm_compute; reflexivity.
Qed.

(** C8 (amended). Below 1 MiB the fingerprint is the MD5 digest of the
    whole content: the same bytes give the identical string whatever the
    path and the modification time, so the fingerprint changes only when
    the bytes change.  From 1 MiB on it is the MD5 digest of the text
    "<size>-<mtime in epoch milliseconds>". *)
Theorem etag_is_md5_of_content_or_of_size_and_mtime :
  (forall P filePath st content,
      size st < 1024 * 1024 ->
      readFile P filePath = Ok content ->
      getETag P filePath st = Ok (MD5.hexdigest content))
  /\ (forall P filePath st P' filePath' st' content,
         size st < 1024 * 1024 -> size st' < 1024 * 1024 ->
         readFile P filePath = Ok content ->
         readFile P' filePath' = Ok content ->
         getETag P filePath st = getETag P' filePath' st')
  /\ (forall P filePath st P' filePath' st' content content',
         size st < 1024 * 1024 -> size st' < 1024 * 1024 ->
         readFile P filePath = Ok content ->
         readFile P' filePath' = Ok content' ->
         getETag P filePath st <> getETag P' filePath' st' ->
         content <> content')
  /\ (forall P filePath st,
         1024 * 1024 <= size st ->
         getETag P filePath st
         = Ok (MD5.hexdigest (JS.string_of_Z (size st) ++ "-"
                                ++ JS.string_of_Z (mtime st)))).
Proof.
  assert (Hsmall : forall P filePath st content,
             size st < 1024 * 1024 ->
             readFile P filePath = Ok content ->
             getETag P filePath st = Ok (MD5.hexdigest content)).
  { intros P filePath st content Hsz Hread. unfold getETag.
    destruct (Z.ltb_spec (size st) (1024 * 1024)); [|lia].
    now rewrite Hread. }
  split; [exact Hsmall|]. split; [|split].
  - intros P filePath st P' filePath' st' content Hs Hs' Hr Hr'.
    now rewrite (Hsmall _ _ _ _ Hs Hr), (Hsmall _ _ _ _ Hs' Hr').
  - intros P filePath st P' filePath' st' content content' Hs Hs' Hr Hr' Hne E.
    subst content'.
    now rewrite (Hsmall _ _ _ _ Hs Hr), (Hsmall _ _ _ _ Hs' Hr') in Hne.
  - intros P filePath st Hsz. unfold getETag.
    destruct (Z.ltb_spec (size st) (1024 * 1024)); [lia | reflexivity].
Qed.

Lemma etag_is_md5_of_content_or_of_size_and_mtime_witness :
  getETag (Sample.platform Sample.disk) "/srv/www/docs/a.txt"
    {| size := 10; mtime := 0; isDirectory := false |}
  = Ok (MD5.hexdigest "0123456789")
  /\ getETag (Sample.platform Sample.disk) "/srv/www/docs/a.txt"
       {| size := 10; mtime := 0; isDirectory := false |}
     = getETag (Sample.platform [("/copy", Sample.File "0123456789" 42)])
         "/copy" {| size := 10; mtime := 42; isDirectory := false |}
  /\ getETag (Sample.platform Sample.disk) "/srv/www/big.iso"
       {| size := 2097152; mtime := 784887151000; isDirectory := false |}
     = Ok (MD5.hexdigest ("2097152" ++ "-" ++ "784887151000")).
Proof.
  destruct etag_is_md5_of_content_or_of_size_and_mtime as (A & B & _ & D).
  split; [|split].
  - apply A; [cbn [size]; lia | reflexivity].
  - apply (B _ _ _ _ _ _ "0123456789"); try reflexivity; cbn [size]; lia.
  - apply (D (Sample.platform Sample.disk) "/srv/www/big.iso"
             {| size := 2097152; mtime := 784887151000; isDirectory := false |}).
    cbn [size]. lia.
Defined.

(* ------------------------------------------------------------------ *)
(** ** Runs of the handler, stage by stage *)

Lemma getResponseHeaders_run P req filePath st w :
  getResponseHeaders P req filePath st w
  = match getETag P filePath st with
    | Ok etag =>
        (Ok (header_is (if_none_match (headers req)) etag
             || header_is (if_modified_since (headers req))
                          (toUTCString P (mtime st))),
         {| res := res w; headersObj := responseHeaders P filePath st etag;
            trace := trace w |})
    | Throw e => (Throw e, w)
    end.
Proof.
  unfold getResponseHeaders, responseHeaders. run.
  destruct (getETag P filePath st); reflexivity.
Qed.

Lemma sendFileResponse_run P req filePath st w :
  head (res w) = None ->
  sendFileResponse P req filePath st w
  = match createReadStream P filePath None with
    | Throw e =>
        (Throw e, {| res := res w; headersObj := headersObj w;
                     trace := trace w ++ [CallCreateReadStream filePath None] |})
    | Ok _ =>
        if shouldCompress req filePath then
          (Ok tt,
           {| res := {| head := Some (200, set_header "Content-Encoding" "gzip"
                                             (headersObj w));
                        body := Some (Stream filePath None true) |};
              headersObj := set_header "Content-Encoding" "gzip" (headersObj w);
              trace := ((trace w ++ [CallCreateReadStream filePath None])
                          ++ [CallShouldCompress filePath])
                         ++ [CallCompressStream] |})
        else
          (Ok tt,
           {| res := {| head := Some (200, set_header "Content-Length"
                                             (JS.string_of_Z (size st))
                                             (headersObj w));
                        body := Some (Stream filePath None false) |};
              headersObj := set_header "Content-Length"
                              (JS.string_of_Z (size st)) (headersObj w);
              trace := (trace w ++ [CallCreateReadStream filePath None])
                         ++ [CallShouldCompress filePath] |})
    end.
Proof.
  intros Hh. unfold sendFileResponse. run.
  destruct (createReadStream P filePath None) as [[]|e]; [|reflexivity].
  destruct (shouldCompress req filePath); run; now rewrite Hh.
Qed.

Lemma sendRangeResponse_run P req filePath st w hdr :
  range (headers req) = Some hdr ->
  head (res w) = None ->
  sendRangeResponse P req filePath st w
  = match parseRange hdr (size st) with
    | None =>
        (Ok tt, {| res := error_response 416 "Range Not Satisfiable";
                   headersObj := headersObj w;
                   trace := trace w ++ [CallParseRange hdr (size st)] |})
    | Some r =>
        let h := partialHeaders r (size st) (headersObj w) in
        let slice := Some (start r, end_ r) in
        let t := ((trace w ++ [CallParseRange hdr (size st)])
                    ++ [CallCreateReadStream filePath slice])%list in
        match createReadStream P filePath slice with
        | Throw e =>
            (Throw e, {| res := {| head := Some (206, h); body := body (res w) |};
                         headersObj := h; trace := t |})
        | Ok _ =>
            if shouldCompress req filePath then
              (Ok tt,
               {| res := {| head := Some (206, h);
                            body := Some (Stream filePath slice true) |};
                  headersObj := set_header "Content-Encoding" "gzip" h;
                  trace := (t ++ [CallShouldCompress filePath])
                             ++ [CallCompressStream] |})
            else
              (Ok tt,
               {| res := {| head := Some (206, h);
                            body := Some (Stream filePath slice false) |};
                  headersObj := h;
                  trace := t ++ [CallShouldCompress filePath] |})
        end
    end.
Proof.
  intros Hr Hh. unfold sendRangeResponse, partialHeaders. rewrite Hr.
  destruct (parseRange hdr (size st)) as [r|]; run; rewrite Hh; [|reflexivity].
  destruct (createReadStream P filePath _) as [[]|e]; [|reflexivity].
  destruct (shouldCompress req filePath); reflexivity.
Qed.

Lemma serveFile_run P req filePath st w :
  serveFile P req filePath st w
  = match getETag P filePath st with
    | Throw e => (Throw e, w)
    | Ok etag =>
        let w0 := {| res := res w;
                     headersObj := responseHeaders P filePath st etag;
                     trace := trace w |} in
        if header_is (if_none_match (headers req)) etag
           || header_is (if_modified_since (headers req))
                        (toUTCString P (mtime st))
        then (writeHead 304 [] ;;; write_body (Text ""))%server w0
        else if negb (falsy (range (headers req)))
             then sendRangeResponse P req filePath st w0
             else sendFileResponse P req filePath st w0
    end.
Proof.
  unfold serveFile. unfold bind at 1. rewrite getResponseHeaders_run.
  destruct (getETag P filePath st); [|reflexivity].
  cbv zeta. destruct (header_is _ _ || header_is _ _); [reflexivity|].
  destruct (negb (falsy (range (headers req)))); reflexivity.
Qed.

Lemma FsError_ENOENT_dec e : {e = FsError "ENOENT"} + {e <> FsError "ENOENT"}.
Proof.
  destruct e as [code| | | |]; try (right; discriminate).
  destruct (String.string_dec code "ENOENT") as [->|H]; [now left|].
  right. congruence.
Qed.

(** Every run of the handler is of one of four kinds: an error answer
    written on a fresh response, the listing of a directory that was
    read, or a guarded run of [serveFile] on the file that the request
    resolves to. *)
Lemma handleRequest_kinds P config req (Q : Result unit * World -> Prop) :
  (getRequestPath P config req = Ok None ->
   Q (settled (error_response 403 "403 Forbidden"))) ->
  (forall e, getRequestPath P config req = Throw e ->
             Q (settled (error_response 500 "500 Internal Server Error"))) ->
  (forall p,
      getRequestPath P config req = Ok (Some p) ->
      (stat P p = Throw (FsError "ENOENT") ->
       Q (settled (error_response 404 "404 Not Found")))
      /\ (forall e, stat P p = Throw e -> e <> FsError "ENOENT" ->
                    Q (settled (error_response 500 "500 Internal Server Error")))
      /\ (forall d e, stat P p = Ok d -> isDirectory d = true ->
                      stat P (Path.join [p; index config]) = Throw e ->
                      e <> FsError "ENOENT" ->
                      Q (settled (error_response 500 "500 Internal Server Error")))
      /\ (forall d pathname,
             stat P p = Ok d -> isDirectory d = true ->
             stat P (Path.join [p; index config]) = Throw (FsError "ENOENT") ->
             (generateDirectoryIndex P p pathname = None ->
              Q (settled (error_response 403 "403 Forbidden")))
             /\ (forall html,
                    generateDirectoryIndex P p pathname = Some html ->
                    Q (settled (if String.eqb html ""
                                then error_response 403 "403 Forbidden"
                                else {| head := Some (200, [("Content-Type",
                                                             "text/html")]);
                                        body := Some (Text html) |}))))
      /\ (forall filePath st,
             resolves P config p filePath st ->
             Q (guarded (serveFile P req filePath st)))) ->
  Q (handleRequest P config req initial).
Proof.
  intros Hnone Hthrow Hsome.
  destruct (getRequestPath P config req) as [[p|]|e0] eqn:Hpath.
  - destruct (getRequestPath_Some P config req p Hpath)
      as (Hp0 & u & h & pathname & Hu & Hh & Hurl).
    destruct (Hsome p eq_refl) as (H404 & H500 & H500i & Hlist & Hfile).
    destruct (stat P p) as [st|e] eqn:Hstat.
    + destruct (isDirectory st) eqn:Hdir.
      * destruct (stat P (Path.join [p; index config])) as [st'|e] eqn:Hidx.
        -- assert (Hres : resolves P config p (Path.join [p; index config]) st')
             by (eapply resolves_index; eassumption).
           specialize (Hfile _ _ Hres).
           unfold handleRequest, guarded in *. unfold try_catch in *.
           unfold bind at 1, lift at 1. rewrite Hpath, (falsy_Some p Hp0).
           unfold bind at 1, lift at 1.
           rewrite (getPathStats_found P p st Hstat), Hdir.
           unfold bind at 1, lift at 1.
           now rewrite (getPathStats_found P _ st' Hidx).
        -- destruct (FsError_ENOENT_dec e) as [->|Hne].
           ++ destruct (Hlist st pathname eq_refl Hdir eq_refl) as [Hl0 Hl1].
              unfold handleRequest. run.
              rewrite Hpath, (falsy_Some p Hp0),
                (getPathStats_found P p st Hstat), Hdir,
                (getPathStats_absent P _ Hidx), Hu, Hh, Hurl.
              destruct (generateDirectoryIndex P p pathname) as [html|].
              ** specialize (Hl1 html eq_refl).
                 destruct (String.eqb html ""); exact Hl1.
              ** exact (Hl0 eq_refl).
           ++ specialize (H500i st e eq_refl Hdir eq_refl Hne).
              unfold handleRequest. run.
              rewrite Hpath, (falsy_Some p Hp0),
                (getPathStats_found P p st Hstat), Hdir,
                (getPathStats_rethrows P _ e Hidx Hne).
              exact H500i.
      * assert (Hres : resolves P config p p st)
          by (eapply resolves_file; eassumption).
        specialize (Hfile _ _ Hres).
        unfold handleRequest, guarded in *. unfold try_catch in *.
        unfold bind at 1, lift at 1. rewrite Hpath, (falsy_Some p Hp0).
        unfold bind at 1, lift at 1.
        now rewrite (getPathStats_found P p st Hstat), Hdir.
    + destruct (FsError_ENOENT_dec e) as [->|Hne].
      * specialize (H404 eq_refl). unfold handleRequest. run.
        rewrite Hpath, (falsy_Some p Hp0), (getPathStats_absent P p Hstat).
        exact H404.
      * specialize (H500 e eq_refl Hne). unfold handleRequest. run.
        rewrite Hpath, (falsy_Some p Hp0), (getPathStats_rethrows P p e Hstat Hne).
        exact H500.
  - specialize (Hnone eq_refl). unfold handleRequest. run. rewrite Hpath.
    exact Hnone.
  - specialize (Hthrow e0 eq_refl). unfold handleRequest. run. rewrite Hpath.
    exact Hthrow.
Qed.

Lemma truthy_Some (h : option string) :
  negb (falsy h) = true -> exists v, h = Some v /\ v <> "".
Proof.
  destruct h as [v|]; [|discriminate]. cbn [falsy]. intros H.
  exists v. split; [reflexivity|]. apply String.eqb_neq.
  now destruct (String.eqb v "").
Qed.

(** The answers of a guarded run of [serveFile], by the way it went. *)
Lemma guarded_serveFile_kinds P req filePath st
      (Q : Result unit * ServerResponse -> Prop) :
  (forall e, getETag P filePath st = Throw e ->
             Q (Ok tt, error_response 500 "500 Internal Server Error")) ->
  (forall etag,
      getETag P filePath st = Ok etag ->
      header_is (if_none_match (headers req)) etag
      || header_is (if_modified_since (headers req))
                   (toUTCString P (mtime st)) = true ->
      Q (Ok tt, {| head := Some (304, []); body := Some (Text "") |})) ->
  (forall etag hdr,
      getETag P filePath st = Ok etag ->
      header_is (if_none_match (headers req)) etag
      || header_is (if_modified_since (headers req))
                   (toUTCString P (mtime st)) = false ->
      range (headers req) = Some hdr -> hdr <> "" ->
      (parseRange hdr (size st) = None ->
       Q (Ok tt, error_response 416 "Range Not Satisfiable"))
      /\ (forall r,
             parseRange hdr (size st) = Some r ->
             (forall e,
                 createReadStream P filePath (Some (start r, end_ r)) = Throw e ->
                 Q (Throw HeadersSent,
                    {| head := Some (206, partialHeaders r (size st)
                                            (responseHeaders P filePath st etag));
                       body := None |}))
             /\ (createReadStream P filePath (Some (start r, end_ r)) = Ok tt ->
                 Q (Ok tt,
                    {| head := Some (206, partialHeaders r (size st)
                                            (responseHeaders P filePath st etag));
                       body := Some (Stream filePath (Some (start r, end_ r))
                                            (shouldCompress req filePath)) |})))) ->
  (forall etag,
      getETag P filePath st = Ok etag ->
      header_is (if_none_match (headers req)) etag
      || header_is (if_modified_since (headers req))
                   (toUTCString P (mtime st)) = false ->
      falsy (range (headers req)) = true ->
      (forall e, createReadStream P filePath None = Throw e ->
                 Q (Ok tt, error_response 500 "500 Internal Server Error"))
      /\ (createReadStream P filePath None = Ok tt ->
          Q (Ok tt,
             {| head := Some (200,
                              if shouldCompress req filePath
                              then set_header "Content-Encoding" "gzip"
                                     (responseHeaders P filePath st etag)
                              else set_header "Content-Length"
                                     (JS.string_of_Z (size st))
                                     (responseHeaders P filePath st etag));
                body := Some (Stream filePath None
                                     (shouldCompress req filePath)) |}))) ->
  Q (answer (guarded (serveFile P req filePath st))).
Proof.
  intros Hthrow Hcached Hrange Hfull.
  unfold guarded, try_catch. rewrite serveFile_run.
  destruct (getETag P filePath st) as [etag|e].
  - cbv zeta.
    destruct (header_is _ _ || header_is _ _) eqn:Hc.
    + exact (Hcached etag eq_refl Hc).
    + destruct (negb (falsy (range (headers req)))) eqn:Hr.
      * destruct (truthy_Some _ Hr) as (hdr & Hhdr & Hne).
        destruct (Hrange etag hdr eq_refl Hc Hhdr Hne) as [Hunsat Hsat].
        rewrite sendRangeResponse_run with (hdr := hdr);
          [|assumption|reflexivity].
        destruct (parseRange hdr (size st)) as [r|].
        -- destruct (Hsat r eq_refl) as [Hfail Hok]. cbv zeta.
           destruct (createReadStream P filePath (Some (start r, end_ r)))
             as [[]|e] eqn:Hs.
           ++ first [specialize (Hok Hs) | specialize (Hok eq_refl)].
              destruct (shouldCompress req filePath); exact Hok.
           ++ first [exact (Hfail e Hs) | exact (Hfail e eq_refl)].
        -- exact (Hunsat eq_refl).
      * apply negb_false_iff in Hr.
        destruct (Hfull etag eq_refl Hc Hr) as [Hfail Hok].
        rewrite sendFileResponse_run; [|reflexivity].
        destruct (createReadStream P filePath None) as [[]|e] eqn:Hs.
        -- first [specialize (Hok Hs) | specialize (Hok eq_refl)].
           destruct (shouldCompress req filePath); exact Hok.
        -- first [exact (Hfail e Hs) | exact (Hfail e eq_refl)].
  - exact (Hthrow e eq_refl).
Qed.

(* ------------------------------------------------------------------ *)
(** ** What every run of the handler guarantees *)

Lemma getRequestPath_within P config req p :
  getRequestPath P config req = Ok (Some p) ->
  JS.startsWith p (root config) = true.
Proof.
  unfold getRequestPath.
  destruct (url req) as [u|]; [|discriminate].
  destruct (host (headers req)) as [h|]; [|discriminate].
  destruct (falsy (Some u) || falsy (Some h)); [discriminate|].
  destruct (url_pathname P u ("http://" ++ h)) as [pathname|]; [|discriminate].
  cbn [bindR].
  destruct (decodeURIComponent P pathname) as [decoded|]; [|discriminate].
  cbn [bindR].
  destruct (JS.startsWith _ _) eqn:Hw; [|discriminate].
  now intros [= <-].
Qed.

(** X1. Whatever the request and the platform, the handler writes a
    status line, and the status is one of 200, 206, 304, 403, 404, 416
    and 500. *)
Theorem every_run_writes_a_listed_status P config req :
  exists status h,
    head (snd (answer (handleRequest P config req initial))) = Some (status, h)
    /\ In status statuses.
Proof.
  apply (handleRequest_kinds P config req
           (fun rw => exists status h,
                head (snd (answer rw)) = Some (status, h) /\ In status statuses)).
  - intros _. eexists _, _. split; [reflexivity | simpl; tauto].
  - intros e _. eexists _, _. split; [reflexivity | simpl; tauto].
  - intros p Hpath. repeat split.
    + intros _. eexists _, _. split; [reflexivity | simpl; tauto].
    + intros e _ _. eexists _, _. split; [reflexivity | simpl; tauto].
    + intros d e _ _ _ _. eexists _, _. split; [reflexivity | simpl; tauto].
    + intros _. eexists _, _. split; [reflexivity | simpl; tauto].
    + intros html _. destruct (String.eqb html "");
        eexists _, _; (split; [reflexivity | simpl; tauto]).
    + intros filePath st _.
      apply (guarded_serveFile_kinds P req filePath st
               (fun a => exists status h,
                    head (snd a) = Some (status, h) /\ In status statuses)).
      * intros e _. eexists _, _. split; [reflexivity | simpl; tauto].
      * intros etag _ _. eexists _, _. split; [reflexivity | simpl; tauto].
      * intros etag hdr _ _ _ _. split; [|intros r _; split].
        -- intros _. eexists _, _. split; [reflexivity | simpl; tauto].
        -- intros e _. eexists _, _. split; [reflexivity | simpl; tauto].
        -- intros _. eexists _, _. split; [reflexivity | simpl; tauto].
      * intros etag _ _ _. split.
        -- intros e _. eexists _, _. split; [reflexivity | simpl; tauto].
        -- intros _. eexists _, _. split; [reflexivity | simpl; tauto].
Qed.

(** X2. A run either returns with the response body written, or it
    throws; it throws only [HeadersSent], from the 500 answer attempted
    after the 206 head of a ranged response was written and the stream
    could not be opened: the head stays 206 and no body is written. *)
Theorem run_ends_response_or_fails_after_206 P config req :
  let a := answer (handleRequest P config req initial) in
  (fst a = Ok tt /\ exists b, body (snd a) = Some b)
  \/ (fst a = Throw HeadersSent
      /\ body (snd a) = None
      /\ exists h filePath r e,
           head (snd a) = Some (206, h)
           /\ createReadStream P filePath (Some (start r, end_ r)) = Throw e).
Proof.
  cbv zeta.
  apply (handleRequest_kinds P config req
           (fun rw =>
              (fst (answer rw) = Ok tt
               /\ exists b, body (snd (answer rw)) = Some b)
              \/ (fst (answer rw) = Throw HeadersSent
                  /\ body (snd (answer rw)) = None
                  /\ exists h filePath r e,
                       head (snd (answer rw)) = Some (206, h)
                       /\ createReadStream P filePath
                            (Some (start r, end_ r)) = Throw e))).
  - intros _. left. split; [reflexivity | eexists; reflexivity].
  - intros e _. left. split; [reflexivity | eexists; reflexivity].
  - intros p Hpath. repeat split.
    + intros _. left. split; [reflexivity | eexists; reflexivity].
    + intros e _ _. left. split; [reflexivity | eexists; reflexivity].
    + intros d e _ _ _ _. left. split; [reflexivity | eexists; reflexivity].
    + intros _. left. split; [reflexivity | eexists; reflexivity].
    + intros html _. left. destruct (String.eqb html "");
        (split; [reflexivity | eexists; reflexivity]).
    + intros filePath st _.
      apply (guarded_serveFile_kinds P req filePath st
               (fun a =>
                  (fst a = Ok tt /\ exists b, body (snd a) = Some b)
                  \/ (fst a = Throw HeadersSent
                      /\ body (snd a) = None
                      /\ exists h filePath r e,
                           head (snd a) = Some (206, h)
                           /\ createReadStream P filePath
                                (Some (start r, end_ r)) = Throw e))).
      * intros e _. left. split; [reflexivity | eexists; reflexivity].
      * intros etag _ _. left. split; [reflexivity | eexists; reflexivity].
      * intros etag hdr _ _ _ _. split; [|intros r _; split].
        -- intros _. left. split; [reflexivity | eexists; reflexivity].
        -- intros e He. right. split; [reflexivity|]. split; [reflexivity|].
           eexists _, filePath, r, e. split; [reflexivity | exact He].
        -- intros _. left. split; [reflexivity | eexists; reflexivity].
      * intros etag _ _ _. split.
        -- intros e _. left. split; [reflexivity | eexists; reflexivity].
        -- intros _. left. split; [reflexivity | eexists; reflexivity].
Qed.

(** A streamed body names the file the request resolves to. *)
Lemma stream_body_resolved P config req filePath slice gz :
  body (snd (answer (handleRequest P config req initial)))
  = Some (Stream filePath slice gz) ->
  exists p st,
    getRequestPath P config req = Ok (Some p)
    /\ JS.startsWith p (root config) = true
    /\ resolves P config p filePath st.
Proof.
  apply (handleRequest_kinds P config req
           (fun rw =>
              body (snd (answer rw)) = Some (Stream filePath slice gz) ->
              exists p st,
                getRequestPath P config req = Ok (Some p)
                /\ JS.startsWith p (root config) = true
                /\ resolves P config p filePath st)).
  - intros _ H. discriminate H.
  - intros e _ H. discriminate H.
  - intros p Hpath. repeat split; try (intros; discriminate).
    + intros html _ Hb. destruct (String.eqb html ""); discriminate Hb.
    + intros f st Hres.
      apply (guarded_serveFile_kinds P req f st
               (fun a =>
                  body (snd a) = Some (Stream filePath slice gz) ->
                  exists p st,
                    getRequestPath P config req = Ok (Some p)
                    /\ JS.startsWith p (root config) = true
                    /\ resolves P config p filePath st));
        try (intros; discriminate).
      * intros etag hdr _ _ _ _. split; [intros; discriminate|].
        intros r _. split; [intros; discriminate|].
        intros _ [= <- _ _]. exists p, st.
        split; [assumption|]. split; [|assumption].
        eapply getRequestPath_within; eassumption.
      * intros etag _ _ _. split; [intros; discriminate|].
        intros _ [= <- _ _]. exists p, st.
        split; [assumption|]. split; [|assumption].
        eapply getRequestPath_within; eassumption.
Qed.

(** X3. Every file the handler streams is the file the request resolves
    to: the resolved path itself, which begins with the root, or the
    index file joined onto it when it is a directory. *)
Theorem streamed_file_is_the_resolved_one P config req filePath slice gz :
  body (snd (answer (handleRequest P config req initial)))
  = Some (Stream filePath slice gz) ->
  exists p st,
    getRequestPath P config req = Ok (Some p)
    /\ JS.startsWith p (root config) = true
    /\ resolves P config p filePath st.
Proof.
  intros Hbody.
  destruct (stream_body_resolved P config req filePath slice gz Hbody)
    as (p & st & H).
  now exists p, st.
Qed.

Lemma streamed_file_is_the_resolved_one_witness :
  exists p st,
    getRequestPath (Sample.platform Sample.disk) Sample.config
      (Sample.get "/site" Sample.plain) = Ok (Some p)
    /\ JS.startsWith p "/srv/www" = true
    /\ resolves (Sample.platform Sample.disk) Sample.config p
         "/srv/www/site/index.html" st.
Proof.
  apply (streamed_file_is_the_resolved_one (Sample.platform Sample.disk)
           Sample.config (Sample.get "/site" Sample.plain)
           "/srv/www/site/index.html" None false).
  vm_compute. reflexivity.
Defined.

Lemma handleRequest_rejected P config req :
  getRequestPath P config req = Ok None ->
  handleRequest P config req initial
  = settled (error_response 403 "403 Forbidden").
Proof.
  intros Hpath.
  apply (handleRequest_kinds P config req
           (fun rw => rw = settled (error_response 403 "403 Forbidden")));
    [reflexivity | congruence | congruence].
Qed.

Lemma handleRequest_failed P config req e :
  getRequestPath P config req = Throw e ->
  handleRequest P config req initial
  = settled (error_response 500 "500 Internal Server Error").
Proof.
  intros Hpath.
  apply (handleRequest_kinds P config req
           (fun rw => rw = settled (error_response 500
                                      "500 Internal Server Error")));
    [congruence | reflexivity | congruence].
Qed.

(** A request that resolves to a file is answered by the guarded run of
    [serveFile] on it. *)
Lemma handleRequest_resolved P config req p filePath st :
  getRequestPath P config req = Ok (Some p) ->
  resolves P config p filePath st ->
  handleRequest P config req initial = guarded (serveFile P req filePath st).
Proof.
  intros Hpath Hres.
  apply (handleRequest_kinds P config req
           (fun rw => rw = guarded (serveFile P req filePath st)));
    [congruence | congruence |].
  intros p' Hpath'. assert (p' = p) by congruence. subst p'.
  repeat split.
  - intros Hs. exfalso. destruct Hres; congruence.
  - intros e Hs _. exfalso. destruct Hres; congruence.
  - intros d e Hs Hd Hi _. exfalso. destruct Hres; congruence.
  - intros _. exfalso. destruct Hres; congruence.
  - intros html _. exfalso. destruct Hres; congruence.
  - intros f' st' Hres'.
    now destruct (resolves_functional P config p _ _ _ _ Hres Hres') as [-> ->].
Qed.

(** X4. A response whose body is a file stream has status 200 when the
    whole file is streamed and 206 when a slice is, and carries the
    validators and cache directives of the file it resolves to, taken
    from the stats of that very file: its fingerprint as [ETag], its
    formatted modification time as [Last-Modified], [Accept-Ranges:
    bytes], a [Cache-Control] that is "no-cache, must-revalidate" exactly
    for the extension [.html] in any letter case, and the fallback content
    type when the MIME table has no entry. *)
Theorem file_responses_carry_validators P config req filePath slice gz :
  body (snd (answer (handleRequest P config req initial)))
  = Some (Stream filePath slice gz) ->
  exists h p st etag,
    head (snd (answer (handleRequest P config req initial)))
    = Some (match slice with None => 200 | Some _ => 206 end, h)
    /\ getRequestPath P config req = Ok (Some p)
    /\ resolves P config p filePath st
    /\ stat P filePath = Ok st
    /\ getETag P filePath st = Ok etag
    /\ get_header "ETag" h = Some etag
    /\ get_header "Last-Modified" h = Some (toUTCString P (mtime st))
    /\ get_header "Accept-Ranges" h = Some "bytes"
    /\ get_header "Cache-Control" h
       = Some (if String.eqb (JS.toLowerCase (Path.extname filePath)) ".html"
               then "no-cache, must-revalidate"
               else "public, max-age=31536000, immutable")
    /\ (mime_getType P filePath = None ->
        get_header "Content-Type" h = Some "application/octet-stream").
Proof.
  intros Hbody.
  destruct (stream_body_resolved P config req _ _ _ Hbody)
    as (p & st & Hpath & _ & Hres).
  assert (Hstat : stat P filePath = Ok st) by (destruct Hres; assumption).
  rewrite (handleRequest_resolved P config req p filePath st Hpath Hres) in *.
  revert Hbody.
  apply (guarded_serveFile_kinds P req filePath st
           (fun a =>
              body (snd a) = Some (Stream filePath slice gz) ->
              exists h p0 st0 etag,
                head (snd a)
                = Some (match slice with None => 200 | Some _ => 206 end, h)
                /\ getRequestPath P config req = Ok (Some p0)
                /\ resolves P config p0 filePath st0
                /\ stat P filePath = Ok st0
                /\ getETag P filePath st0 = Ok etag
                /\ get_header "ETag" h = Some etag
                /\ get_header "Last-Modified" h = Some (toUTCString P (mtime st0))
                /\ get_header "Accept-Ranges" h = Some "bytes"
                /\ get_header "Cache-Control" h
                   = Some (if String.eqb (JS.toLowerCase (Path.extname filePath))
                                         ".html"
                           then "no-cache, must-revalidate"
                           else "public, max-age=31536000, immutable")
                /\ (mime_getType P filePath = None ->
                    get_header "Content-Type" h
                    = Some "application/octet-stream")));
    try (intros; discriminate).
  - intros etag hdr Hetag _ _ _. split; [intros; discriminate|].
    intros r _. split; [intros; discriminate|].
    intros _ [= <- _]. eexists _, p, st, etag. split; [reflexivity|].
    repeat (split; [assumption|]). unfold partialHeaders.
    repeat split; rewrite ?get_set_other by reflexivity; try reflexivity.
    intros Hm. unfold responseHeaders. now rewrite Hm.
  - intros etag Hetag _ _. split; [intros; discriminate|].
    intros _ [= <- _]. eexists _, p, st, etag. split; [reflexivity|].
    repeat (split; [assumption|]).
    destruct (shouldCompress req filePath);
      (repeat split; rewrite ?get_set_other by reflexivity; try reflexivity;
       intros Hm; unfold responseHeaders; now rewrite Hm).
Qed.

Lemma file_responses_carry_validators_witness :
  exists h p st etag,
    head (Sample.respond (Sample.get "/site" Sample.plain)) = Some (200, h)
    /\ resolves (Sample.platform Sample.disk) Sample.config p
         "/srv/www/site/index.html" st
    /\ Sample.disk_stat Sample.disk "/srv/www/site/index.html" = Ok st
    /\ getETag (Sample.platform Sample.disk) "/srv/www/site/index.html" st
       = Ok etag
    /\ get_header "ETag" h = Some etag
    /\ get_header "Last-Modified" h
       = Some (Sample.utc_string (mtime st))
    /\ get_header "Accept-Ranges" h = Some "bytes"
    /\ get_header "Cache-Control" h = Some "no-cache, must-revalidate".
Proof.
  destruct (file_responses_carry_validators (Sample.platform Sample.disk)
              Sample.config (Sample.get "/site" Sample.plain)
              "/srv/www/site/index.html" None false)
    as (h & p & st & etag & H1 & _ & H2 & H3 & H4 & H5 & H6 & H7 & H8 & _).
  - vm_compute. reflexivity.
  - exists h, p, st, etag. repeat split; assumption.
Defined.

(** X5. A response that streams the whole file has status 200 and
    exactly one of the two framing headers: [Content-Encoding: gzip]
    without [Content-Length] when the stream is compressed,
    [Content-Length] equal to the file size without [Content-Encoding]
    when it is not. *)
Theorem full_response_has_length_or_encoding P config req filePath gz :
  body (snd (answer (handleRequest P config req initial)))
  = Some (Stream filePath None gz) ->
  exists h p st,
    head (snd (answer (handleRequest P config req initial))) = Some (200, h)
    /\ resolves P config p filePath st
    /\ gz = shouldCompress req filePath
    /\ if gz
       then get_header "Content-Encoding" h = Some "gzip"
            /\ get_header "Content-Length" h = None
       else get_header "Content-Length" h = Some (JS.string_of_Z (size st))
            /\ get_header "Content-Encoding" h = None.
Proof.
  intros Hbody.
  destruct (stream_body_resolved P config req _ _ _ Hbody)
    as (p & st & Hpath & _ & Hres).
  rewrite (handleRequest_resolved P config req p filePath st Hpath Hres) in *.
  revert Hbody.
  apply (guarded_serveFile_kinds P req filePath st
           (fun a =>
              body (snd a) = Some (Stream filePath None gz) ->
              exists h p0 st0,
                head (snd a) = Some (200, h)
                /\ resolves P config p0 filePath st0
                /\ gz = shouldCompress req filePath
                /\ if gz
                   then get_header "Content-Encoding" h = Some "gzip"
                        /\ get_header "Content-Length" h = None
                   else get_header "Content-Length" h
                        = Some (JS.string_of_Z (size st0))
                        /\ get_header "Content-Encoding" h = None));
    try (intros; discriminate).
  - intros etag hdr _ _ _ _. split; [intros; discriminate|].
    intros r _. split; intros; discriminate.
  - intros etag _ _ _. split; [intros; discriminate|].
    intros _ [= <-]. eexists _, p, st. split; [reflexivity|].
    split; [assumption|]. split; [reflexivity|].
    destruct (shouldCompress req filePath); split;
      first [apply get_set_same | now rewrite get_set_other by reflexivity].
Qed.

Lemma full_response_has_length_or_encoding_witness :
  exists h p st,
    head (Sample.respond (Sample.get "/logo.png"
                            (Sample.with_encoding "gzip" Sample.plain)))
    = Some (200, h)
    /\ resolves (Sample.platform Sample.disk) Sample.config p
         "/srv/www/logo.png" st
    /\ get_header "Content-Length" h = Some (JS.string_of_Z (size st))
    /\ get_header "Content-Encoding" h = None.
Proof.
  destruct (full_response_has_length_or_encoding (Sample.platform Sample.disk)
              Sample.config
              (Sample.get "/logo.png" (Sample.with_encoding "gzip" Sample.plain))
              "/srv/www/logo.png" false)
    as (h & p & st & H1 & H2 & _ & H3 & H4).
  - vm_compute. reflexivity.
  - now exists h, p, st.
Defined.

(** X6. A request without a URL or without a [Host] header (absent or
    empty) is answered 403, whatever the platform. *)
Theorem request_without_url_or_host_is_403 P config req :
  falsy (url req) = true \/ falsy (host (headers req)) = true ->
  handleRequest P config req initial
  = settled (error_response 403 "403 Forbidden").
Proof.
  intros H. apply handleRequest_rejected. unfold getRequestPath.
  destruct (url req) as [u|]; [|reflexivity].
  destruct (host (headers req)) as [h|]; [|reflexivity].
  destruct H as [H|H]; rewrite H; [reflexivity | now rewrite orb_true_r].
Qed.

Lemma request_without_url_or_host_is_403_witness :
  Sample.serve
    {| url := Some "/app.js";
       headers := {| host := None; range := None; if_none_match := None;
                     if_modified_since := None; accept_encoding := None |} |}
  = settled (error_response 403 "403 Forbidden").
Proof.
  apply request_without_url_or_host_is_403. right. reflexivity.
Defined.

(** X7. When the URL does not parse, or its path name does not
    percent-decode, the thrown error reaches the handler's catch: the
    answer is 500, not 403. *)
Theorem unparsable_target_is_500 P config req u h :
  url req = Some u -> u <> "" ->
  host (headers req) = Some h -> h <> "" ->
  (exists e, url_pathname P u ("http://" ++ h) = Throw e)
  \/ (exists pathname e,
         url_pathname P u ("http://" ++ h) = Ok pathname
         /\ decodeURIComponent P pathname = Throw e) ->
  handleRequest P config req initial
  = settled (error_response 500 "500 Internal Server Error").
Proof.
  intros Hu Hu0 Hh Hh0 Hfail.
  assert (exists e, getRequestPath P config req = Throw e) as [e He].
  { unfold getRequestPath.
    rewrite Hu, Hh, (falsy_Some u Hu0), (falsy_Some h Hh0). cbn [orb].
    destruct Hfail as [[e He] | (pathname & e & Hp & Hd)].
    - rewrite He. now exists e.
    - rewrite Hp. cbn [bindR]. rewrite Hd. now exists e. }
  now apply (handleRequest_failed P config req e).
Qed.

Lemma unparsable_target_is_500_witness :
  Sample.serve (Sample.get "/%zz" Sample.plain)
  = settled (error_response 500 "500 Internal Server Error").
Proof.
  apply (unparsable_target_is_500 (Sample.platform Sample.disk) Sample.config
           (Sample.get "/%zz" Sample.plain) "/%zz" "localhost:3000");
    try reflexivity; try discriminate.
  right. exists "/%zz", URIError. split; reflexivity.
Defined.

(** X8. A file below 1 MiB whose content cannot be read has no
    fingerprint: the request is answered 500.  So is a directory whose
    index entry is itself a directory. *)
Theorem unreadable_small_file_is_500 P config req p filePath st e :
  getRequestPath P config req = Ok (Some p) ->
  resolves P config p filePath st ->
  size st < 1024 * 1024 ->
  readFile P filePath = Throw e ->
  answer (handleRequest P config req initial)
  = (Ok tt, error_response 500 "500 Internal Server Error").
Proof.
  intros Hpath Hres Hsz Hread.
  rewrite (handleRequest_resolved P config req p filePath st Hpath Hres).
  assert (Hetag : getETag P filePath st = Throw e).
  { unfold getETag. destruct (Z.ltb_spec (size st) (1024 * 1024)); [|lia].
    now rewrite Hread. }
  apply (guarded_serveFile_kinds P req filePath st
           (fun a => a = (Ok tt, error_response 500 "500 Internal Server Error")));
    [reflexivity | congruence | congruence | congruence].
Qed.

Lemma unreadable_small_file_is_500_witness :
  answer (handleRequest (Sample.platform disk_odd) Sample.config
            (Sample.get "/nested" Sample.plain) initial)
  = (Ok tt, error_response 500 "500 Internal Server Error").
Proof.
  apply (unreadable_small_file_is_500 (Sample.platform disk_odd) Sample.config
           (Sample.get "/nested" Sample.plain) "/srv/www/nested"
           "/srv/www/nested/index.html"
           {| size := 4096; mtime := 0; isDirectory := true |}
           (FsError "EISDIR")).
  - reflexivity.
  - exact (resolves_index (Sample.platform disk_odd) Sample.config
             "/srv/www/nested"
             {| size := 4096; mtime := 0; isDirectory := true |}
             {| size := 4096; mtime := 0; isDirectory := true |}
             eq_refl eq_refl eq_refl).
  - cbn [size]. lia.
  - reflexivity.
Defined.

(** X9. A directory that has an index file is answered exactly as the
    index file requested by its own path with the same headers. *)
Theorem directory_is_answered_as_its_index P config req1 req2 p d st :
  getRequestPath P config req1 = Ok (Some p) ->
  stat P p = Ok d -> isDirectory d = true ->
  stat P (Path.join [p; index config]) = Ok st -> isDirectory st = false ->
  getRequestPath P config req2 = Ok (Some (Path.join [p; index config])) ->
  headers req1 = headers req2 ->
  handleRequest P config req1 initial = handleRequest P config req2 initial.
Proof.
  intros Hp1 Hd Hdir Hi Hfile Hp2 Hh.
  rewrite (handleRequest_resolved P config req1 p _ st Hp1
             (resolves_index P config p d st Hd Hdir Hi)).
  rewrite (handleRequest_resolved P config req2 _ _ st Hp2
             (resolves_file P config _ st Hi Hfile)).
  destruct req1 as [u1 h1], req2 as [u2 h2]. cbn [headers] in Hh. subst h2.
  reflexivity.
Qed.

Lemma directory_is_answered_as_its_index_witness :
  Sample.serve (Sample.get "/site" (Sample.with_encoding "gzip" Sample.plain))
  = Sample.serve (Sample.get "/site/index.html"
                    (Sample.with_encoding "gzip" Sample.plain)).
Proof.
  apply (directory_is_answered_as_its_index (Sample.platform Sample.disk)
           Sample.config _ _ "/srv/www/site"
           {| size := 4096; mtime := 0; isDirectory := true |}
           {| size := 9; mtime := 951782400000; isDirectory := false |});
    reflexivity.
Defined.

(* ------------------------------------------------------------------ *)
(** ** Joining and splitting *)

Lemma str_app_assoc (a b c : string) : (a ++ b) ++ c = a ++ (b ++ c).
Proof. induction a as [|x a IH]; simpl; [reflexivity | now rewrite IH]. Qed.

Lemma str_app_empty_r (a : string) : a ++ "" = a.
Proof. induction a as [|x a IH]; simpl; [reflexivity | now rewrite IH]. Qed.

Lemma includes_app_l s t x :
  JS.includes s x = true -> JS.includes (s ++ t) x = true.
Proof.
  rewrite !includes_spec. intros (pre & post & ->).
  exists pre, (post ++ t). now rewrite !str_app_assoc.
Qed.

Lemma includes_app_r s t x :
  JS.includes t x = true -> JS.includes (s ++ t) x = true.
Proof.
  rewrite !includes_spec. intros (pre & post & ->).
  exists (s ++ pre), post. now rewrite !str_app_assoc.
Qed.

Lemma join_cons sep x y ys :
  JS.join sep (x :: y :: ys) = x ++ sep ++ JS.join sep (y :: ys).
Proof. reflexivity. Qed.

Lemma join_includes_each xs x :
  In x xs -> JS.includes (JS.join "" xs) x = true.
Proof.
  induction xs as [|y ys IH]; intros Hin; [destruct Hin|].
  destruct ys as [|z zs].
  - destruct Hin as [->|[]]. cbn [JS.join].
    apply includes_spec. exists "", "". cbn. now rewrite str_app_empty_r.
  - rewrite join_cons. destruct Hin as [->|Hin].
    + apply includes_app_l, includes_spec. exists "", "". cbn.
      now rewrite str_app_empty_r.
    + apply includes_app_r, includes_app_r. now apply IH.
Qed.

Lemma has_char_app c a b :
  has_char c (a ++ b) = has_char c a || has_char c b.
Proof.
  induction a as [|x a IH]; simpl; [reflexivity|].
  now rewrite IH, orb_assoc.
Qed.

(** Splitting what was joined gives the pieces back, when no piece holds
    the separator. *)
Lemma split_join sep xs :
  xs <> [] ->
  (forall x, In x xs -> has_char sep x = false) ->
  JS.split sep (JS.join (String sep "") xs) = xs.
Proof.
  induction xs as [|x ys IH]; intros Hne Hno; [congruence|].
  destruct ys as [|y zs].
  - cbn [JS.join]. apply split_single, Hno. now left.
  - rewrite join_cons.
    change (x ++ String sep "" ++ JS.join (String sep "") (y :: zs))
      with (x ++ String sep (JS.join (String sep "") (y :: zs))).
    rewrite split_app by (apply Hno; now left).
    rewrite IH; [reflexivity | discriminate |].
    intros w Hw. apply Hno. now right.
Qed.

(** Joining what was split gives the string back. *)
Lemma join_split sep s : JS.join (String sep "") (JS.split sep s) = s.
Proof.
  induction s as [|c r IH]; [reflexivity|].
  cbn [JS.split]. destruct (Ascii.eqb c sep) eqn:Hc.
  - apply Ascii.eqb_eq in Hc. subst c.
    pose proof (split_nonempty sep r) as Hne.
    destruct (JS.split sep r) as [|x xs]; [congruence|].
    rewrite join_cons, IH. reflexivity.
  - pose proof (split_nonempty sep r) as Hne.
    destruct (JS.split sep r) as [|x xs]; [congruence|].
    destruct xs as [|y ys].
    + cbn [JS.join] in *. now rewrite IH.
    + rewrite join_cons. rewrite join_cons in IH. now rewrite <- IH.
Qed.

Lemma join_snoc_empty sep xs :
  xs <> [] ->
  JS.join (String sep "") (xs ++ [""])%list
  = JS.join (String sep "") xs ++ String sep "".
Proof.
  induction xs as [|x ys IH]; intros Hne; [congruence|].
  destruct ys as [|y zs].
  - reflexivity.
  - change (JS.join (String sep "") ((x :: y :: zs) ++ [""])%list)
      with (x ++ String sep "" ++ JS.join (String sep "") ((y :: zs) ++ [""])%list).
    rewrite IH by discriminate. rewrite join_cons.
    now rewrite !str_app_assoc.
Qed.

(* ------------------------------------------------------------------ *)
(** ** Directory listings *)

Lemma getRequestPath_Some_decoded P config req p :
  getRequestPath P config req = Ok (Some p) ->
  exists u h pathname decoded,
    url req = Some u /\ host (headers req) = Some h
    /\ url_pathname P u ("http://" ++ h) = Ok pathname
    /\ decodeURIComponent P pathname = Ok decoded
    /\ p = Path.normalize (Path.join [root config; decoded]).
Proof.
  unfold getRequestPath.
  destruct (url req) as [u|]; [|discriminate].
  destruct (host (headers req)) as [h|]; [|discriminate].
  destruct (falsy (Some u) || falsy (Some h)); [discriminate|].
  destruct (url_pathname P u ("http://" ++ h)) as [pathname|] eqn:Hp;
    [|discriminate].
  cbn [bindR].
  destruct (decodeURIComponent P pathname) as [decoded|] eqn:Hd; [|discriminate].
  cbn [bindR].
  destruct (JS.startsWith _ _); [|discriminate].
  intros [= <-]. now exists u, h, pathname, decoded.
Qed.

(** X10. A directory without an index file: when its entries can be
    read the answer is 200 with an HTML page that contains, for every
    entry, the anchor made of the request path name joined with the entry
    and of the entry's name as it is; when they cannot be read, whatever
    the error, the answer is 403. *)
Theorem directory_without_index_is_listed_or_403 P config req p d :
  getRequestPath P config req = Ok (Some p) ->
  stat P p = Ok d -> isDirectory d = true ->
  stat P (Path.join [p; index config]) = Throw (FsError "ENOENT") ->
  (forall e,
      readdir P p = Throw e ->
      handleRequest P config req initial
      = settled (error_response 403 "403 Forbidden"))
  /\ (forall files,
         readdir P p = Ok files ->
         exists u h pathname html,
           url req = Some u /\ host (headers req) = Some h
           /\ url_pathname P u ("http://" ++ h) = Ok pathname
           /\ handleRequest P config req initial
              = settled {| head := Some (200, [("Content-Type", "text/html")]);
                           body := Some (Text html) |}
           /\ forall f, In f files ->
                        JS.includes html (anchor pathname f) = true).
Proof.
  intros Hpath Hstat Hdir Hidx.
  destruct (getRequestPath_Some P config req p Hpath) as (Hp0 & _).
  destruct (getRequestPath_Some_decoded P config req p Hpath)
    as (u & h & pathname & decoded & Hu & Hh & Hurl & Hdec & _).
  assert (Hrun : handleRequest P config req initial
                 = match generateDirectoryIndex P p pathname with
                   | Some html =>
                       settled (if String.eqb html ""
                                then error_response 403 "403 Forbidden"
                                else {| head := Some (200, [("Content-Type",
                                                             "text/html")]);
                                        body := Some (Text html) |})
                   | None => settled (error_response 403 "403 Forbidden")
                   end).
  { unfold handleRequest. run.
    rewrite Hpath, (falsy_Some p Hp0), (getPathStats_found P p d Hstat), Hdir,
      (getPathStats_absent P _ Hidx), Hu, Hh, Hurl.
    destruct (generateDirectoryIndex P p pathname) as [html|]; [|reflexivity].
    destruct (String.eqb html ""); reflexivity. }
  split.
  - intros e Hread. rewrite Hrun. unfold generateDirectoryIndex.
    now rewrite Hread.
  - intros files Hread. exists u, h, pathname.
    unfold generateDirectoryIndex in Hrun. rewrite Hread, Hdec in Hrun.
    eexists. repeat (split; [eassumption|]). split; [exact Hrun|].
    intros f Hin.
    do 11 apply includes_app_r. apply includes_app_l.
    apply join_includes_each.
    change (anchor pathname f)
      with ((fun file => "<li><a href=" ++ dq ++ Path.join [pathname; file]
                           ++ dq ++ ">" ++ file ++ "</a></li>") f).
    now apply in_map.
Qed.

Lemma directory_without_index_is_listed_or_403_witness :
  exists u h pathname html,
    url (Sample.get "/docs" Sample.plain) = Some u
    /\ host (headers (Sample.get "/docs" Sample.plain)) = Some h
    /\ Sample.pathname_of u ("http://" ++ h) = Ok pathname
    /\ Sample.serve (Sample.get "/docs" Sample.plain)
       = settled {| head := Some (200, [("Content-Type", "text/html")]);
                    body := Some (Text html) |}
    /\ forall f, In f ["a.txt"; "b c.txt"] ->
                 JS.includes html (anchor pathname f) = true.
Proof.
  apply (proj2 (directory_without_index_is_listed_or_403
                  (Sample.platform Sample.disk) Sample.config
                  (Sample.get "/docs" Sample.plain) "/srv/www/docs"
                  {| size := 4096; mtime := 0; isDirectory := true |}
                  eq_refl eq_refl eq_refl eq_refl)).
  reflexivity.
Defined.

(* ------------------------------------------------------------------ *)
(** ** Normalized paths under an absolute root *)

(** Every segment that normalization keeps was kept before or comes from
    the input, and then it is neither empty nor "." nor, below an
    absolute path, "..". *)
Lemma normalizeSegments_kept allow segs : forall res x,
  In x (Path.normalizeSegments allow res segs) ->
  In x res
  \/ (In x segs /\ String.eqb x "" = false /\ String.eqb x "." = false
      /\ (allow = false -> Path.is_dotdot x = false)).
Proof.
  induction segs as [|seg rest IH]; intros res x Hin; cbn [Path.normalizeSegments] in Hin.
  - now left.
  - destruct (String.eqb seg "" || String.eqb seg ".") eqn:Hskip.
    + destruct (IH _ _ Hin) as [H|(H & H')]; [now left|].
      right. split; [now right | assumption].
    + apply orb_false_iff in Hskip. destruct Hskip as [He Hd].
      destruct (Path.is_dotdot seg) eqn:Hdd.
      * destruct res as [|top res'].
        -- destruct allow.
           ++ destruct (IH _ _ Hin) as [[<-|[]]|(H & H')].
              ** right. repeat split; try assumption; [now left | discriminate].
              ** right. split; [now right | assumption].
           ++ destruct (IH _ _ Hin) as [[]|(H & H')].
              right. split; [now right | assumption].
        -- destruct (Path.is_dotdot top).
           ++ destruct allow.
              ** destruct (IH _ _ Hin) as [[<-|H]|(H & H')].
                 --- right. repeat split; try assumption; [now left | discriminate].
                 --- now left.
                 --- right. split; [now right | assumption].
              ** destruct (IH _ _ Hin) as [H|(H & H')]; [now left|].
                 right. split; [now right | assumption].
           ++ destruct (IH _ _ Hin) as [H|(H & H')]; [left; now right|].
              right. split; [now right | assumption].
      * destruct (IH _ _ Hin) as [[<-|H]|(H & H')].
        -- right. repeat split; try assumption; [now left | now intros _].
        -- now left.
        -- right. split; [now right | assumption].
Qed.

Lemma normalize_absolute_segments r seg :
  In seg (segments (Path.normalize (String "/" r))) ->
  seg = ""
  \/ (String.eqb seg "." = false /\ Path.is_dotdot seg = false).
Proof.
  unfold segments, Path.normalize. cbn [Ascii.eqb Bool.eqb negb].
  unfold Path.normalizeString.
  set (L := Path.normalizeSegments false [] (JS.split "/" (String "/" r))).
  assert (HL0 : forall x, In x (rev L) ->
                          String.eqb x "" = false /\ has_char "/" x = false
                          /\ String.eqb x "." = false
                          /\ Path.is_dotdot x = false).
  { intros x Hx. apply in_rev in Hx.
    destruct (normalizeSegments_kept _ _ _ _ Hx) as [[]|(Hs & He & Hd & Hdd)].
    split; [assumption|].
    split; [now apply (split_parts_no_sep "/" (String "/" r)) | auto]. }
  assert (HL : forall x, In x (rev L) ->
                         has_char "/" x = false /\ String.eqb x "." = false
                         /\ Path.is_dotdot x = false)
    by (intros x Hx; now destruct (HL0 x Hx) as (_ & H1 & H2 & H3)).
  destruct (rev L) as [|y ys] eqn:HrL.
  - cbn. intros [<-|[<-|[]]]; now left.
  - assert (Hne : JS.join "/" (y :: ys) <> "").
    { destruct (HL0 y (or_introl eq_refl)) as (Hy & _).
      destruct ys as [|z zs].
      - cbn [JS.join]. intros E. subst y. discriminate Hy.
      - rewrite join_cons. destruct y; discriminate. }
    destruct (JS.join "/" (y :: ys)) as [|c q] eqn:Hj; [congruence|].
    rewrite <- Hj.
    destruct (Path.endsWithSlash (String "/" r)).
    + change ("/" ++ JS.join "/" (y :: ys) ++ "/")
        with (String "/" (JS.join "/" (y :: ys) ++ "/")).
      cbn [JS.split Ascii.eqb Bool.eqb].
      rewrite <- (join_snoc_empty "/" (y :: ys)) by discriminate.
      rewrite split_join.
      * intros [<-|Hin]; [now left|]. apply in_app_or in Hin.
        destruct Hin as [Hin|[<-|[]]]; [|now left].
        right. now apply HL.
      * destruct ys; discriminate.
      * intros x Hx. apply in_app_or in Hx.
        destruct Hx as [Hx|[<-|[]]]; [now apply HL | reflexivity].
    + change ("/" ++ JS.join "/" (y :: ys))
        with (String "/" (JS.join "/" (y :: ys))).
      cbn [JS.split Ascii.eqb Bool.eqb].
      rewrite split_join; [|discriminate|intros x Hx; now apply HL].
      intros [<-|Hin]; [now left|]. right. now apply HL.
Qed.

Lemma normalize_absolute r : exists q, Path.normalize (String "/" r) = String "/" q.
Proof.
  unfold Path.normalize. cbn [Ascii.eqb Bool.eqb negb].
  eexists. reflexivity.
Qed.

(** X11. Under a root that is an absolute path, a resolved request path
    is absolute, begins with the root and has no "." and no ".." segment
    left. *)
Theorem resolved_path_has_no_dot_segments P config req p r0 :
  root config = String "/" r0 ->
  getRequestPath P config req = Ok (Some p) ->
  JS.startsWith p (root config) = true
  /\ JS.startsWith p "/" = true
  /\ forall seg, In seg (segments p) -> seg <> "." /\ seg <> "..".
Proof.
  intros Hroot Hpath.
  split; [eapply getRequestPath_within; eassumption|].
  destruct (getRequestPath_Some_decoded P config req p Hpath)
    as (u & h & pathname & decoded & _ & _ & _ & _ & ->).
  assert (Hjoin : exists q, Path.join [root config; decoded] = String "/" q).
  { unfold Path.join. rewrite Hroot. cbn [filter String.eqb negb].
    destruct (negb (String.eqb decoded "")).
    - change (JS.join "/" [String "/" r0; decoded])
        with (String "/" (r0 ++ "/" ++ decoded)).
      apply normalize_absolute.
    - cbn [JS.join]. apply normalize_absolute. }
  destruct Hjoin as [q ->].
  split.
  - destruct (normalize_absolute q) as [q' ->]. reflexivity.
  - intros seg Hin.
    destruct (normalize_absolute_segments q seg Hin) as [->|[Hd Hdd]].
    + split; discriminate.
    + split; intros ->; discriminate.
Qed.

Lemma resolved_path_has_no_dot_segments_witness :
  JS.startsWith "/srv/www/docs/a.txt" "/srv/www" = true
  /\ JS.startsWith "/srv/www/docs/a.txt" "/" = true
  /\ forall seg, In seg (segments "/srv/www/docs/a.txt") ->
                 seg <> "." /\ seg <> "..".
Proof.
  apply (resolved_path_has_no_dot_segments (Sample.platform Sample.disk)
           Sample.config
           (Sample.get "/site/%2e%2e/docs/./x/..%2fa.txt" Sample.plain)
           "/srv/www/docs/a.txt" "srv/www");
    reflexivity.
Defined.

(* ------------------------------------------------------------------ *)
(** ** More on range negotiation *)







(** X13. On an empty file every range whose start field parses is
    unsatisfiable, and the request is answered 416. *)
Theorem ranges_on_an_empty_file_are_unsatisfiable P req filePath st w hdr :
  size st <= 0 ->
  range (headers req) = Some hdr ->
  fst (rangeFields hdr) <> JS.NaN ->
  head (res w) = None ->
  parseRange hdr (size st) = None
  /\ res (snd (sendRangeResponse P req filePath st w))
     = error_response 416 "Range Not Satisfiable".
Proof.
  intros Hsz Hr Hstart Hh.
  assert (Hnone : parseRange hdr (size st) = None).
  { rewrite parseRange_fields.
    destruct (rangeFields_nonneg hdr) as [Hs0 _].
    destruct (rangeFields hdr) as [[|s0] [|e0]]; cbn [fst] in *; try congruence.
    - cbn [JS.ge]. specialize (Hs0 s0 eq_refl).
      destruct (Z.geb_spec s0 (size st)); [reflexivity | lia].
    - cbn [JS.ge]. specialize (Hs0 s0 eq_refl).
      destruct (Z.geb_spec s0 (size st)); [reflexivity | lia]. }
  split; [assumption|].
  now rewrite (sendRangeResponse_unsatisfiable P req filePath st w hdr).
Qed.

Lemma ranges_on_an_empty_file_are_unsatisfiable_witness :
  parseRange "bytes=0-" 0 = None
  /\ res (snd (sendRangeResponse (Sample.platform disk_odd)
                 (Sample.get "/empty.txt"
                    (Sample.with_range "bytes=0-" Sample.plain))
                 "/srv/www/empty.txt"
                 {| size := 0; mtime := 0; isDirectory := false |} initial))
     = error_response 416 "Range Not Satisfiable".
Proof.
  apply (ranges_on_an_empty_file_are_unsatisfiable (Sample.platform disk_odd)
           (Sample.get "/empty.txt" (Sample.with_range "bytes=0-" Sample.plain))
           "/srv/www/empty.txt"
           {| size := 0; mtime := 0; isDirectory := false |} initial "bytes=0-").
  - cbn [size]. lia.
  - reflexivity.
  - discriminate.
  - reflexivity.
Defined.



(* ------------------------------------------------------------------ *)
(** ** [dedent] *)

Lemma is_indent_no_newline w :
  is_indent w = true -> has_char Utils.newline w = false.
Proof.
  induction w as [|c r IH]; intros H; [reflexivity|].
  cbn [is_indent] in H. apply andb_true_iff in H. destruct H as [H Hr].
  apply andb_true_iff in H. destruct H as [_ Hc].
  apply negb_true_iff in Hc. cbn [has_char]. rewrite Hc. now apply IH.
Qed.

Lemma leadingSpace_indent w line :
  is_indent w = true -> starts_flush line = true ->
  Utils.leadingSpace (w ++ line) = String.length w.
Proof.
  intros Hw Hl. induction w as [|c r IH].
  - destruct line as [|d l]; [reflexivity|].
    cbn [append Utils.leadingSpace]. cbn [starts_flush] in Hl.
    apply negb_true_iff in Hl. now rewrite Hl.
  - cbn [is_indent] in Hw. apply andb_true_iff in Hw. destruct Hw as [H Hr].
    apply andb_true_iff in H. destruct H as [Hs _].
    cbn [append Utils.leadingSpace String.length]. rewrite Hs.
    now rewrite IH.
Qed.

Lemma drop_app w line : JS.drop (String.length w) (w ++ line) = line.
Proof.
  induction w as [|c r IH]; [now destruct line | exact IH].
Qed.

Lemma drop_zero s : JS.drop 0 s = s.
Proof. now destruct s. Qed.

Lemma has_char_drop c k : forall s,
  has_char c s = false -> has_char c (JS.drop k s) = false.
Proof.
  induction k as [|k IH]; intros s H; [now rewrite drop_zero|].
  destruct s as [|d r]; [reflexivity|].
  cbn [has_char] in H. apply orb_false_iff in H. cbn [JS.drop].
  now apply IH.
Qed.

(** X15. [dedent] undoes a uniform indentation: for a text written as a
    leading newline followed by lines that all carry the same white-space
    prefix, the first of which has no further white space, the result is
    the lines themselves joined by newlines. *)
Theorem dedent_removes_a_uniform_indent w lines :
  is_indent w = true ->
  lines <> [] ->
  (forall l, In l lines -> has_char Utils.newline l = false) ->
  starts_flush (hd "" lines) = true ->
  Utils.dedent (String Utils.newline
                  (JS.join (String Utils.newline "") (map (append w) lines)))
  = JS.join (String Utils.newline "") lines.
Proof.
  intros Hw Hne Hno Hflush. unfold Utils.dedent.
  cbn [Utils.stripLeadingNewline]. rewrite Ascii.eqb_refl.
  rewrite split_join.
  - destruct lines as [|l0 ls]; [congruence|].
    cbn [map hd] in *. rewrite (leadingSpace_indent w l0 Hw Hflush).
    f_equal. rewrite drop_app. f_equal.
    rewrite map_map. rewrite <- (map_id ls) at 2.
    apply map_ext. intros l. apply drop_app.
  - destruct lines; [congruence | discriminate].
  - intros x Hx. apply in_map_iff in Hx. destruct Hx as (l & <- & Hl).
    rewrite has_char_app, (is_indent_no_newline w Hw), (Hno l Hl). reflexivity.
Qed.

Lemma dedent_removes_a_uniform_indent_witness :
  Utils.dedent (String Utils.newline
                  (JS.join (String Utils.newline "")
                     (map (append "    ")
                        ["Usage: npx explorer [options]"; "";
                         "Options:"; "  -p, --port   server port"])))
  = JS.join (String Utils.newline "")
      ["Usage: npx explorer [options]"; "";
       "Options:"; "  -p, --port   server port"].
Proof.
  apply (dedent_removes_a_uniform_indent "    ").
  - reflexivity.
  - discriminate.
  - intros l [<-|[<-|[<-|[<-|[]]]]]; reflexivity.
  - reflexivity.
Defined.

Lemma split_first_char sep c r :
  Ascii.eqb c sep = false ->
  exists x xs, JS.split sep (String c r) = String c x :: xs.
Proof.
  intros Hc. cbn [JS.split]. rewrite Hc.
  pose proof (split_nonempty sep r) as Hne.
  destruct (JS.split sep r) as [|x xs]; [congruence|]. now exists x, xs.
Qed.

(** X16. A text whose first character is not white space comes back
    unchanged, and with one newline in front only that newline is
    removed. *)
Theorem dedent_keeps_flush_text s :
  starts_flush s = true ->
  Utils.dedent s = s /\ Utils.dedent (String Utils.newline s) = s.
Proof.
  intros Hs.
  assert (Hbody : JS.join (String Utils.newline "")
                    (map (JS.drop
                            match JS.split Utils.newline s with
                            | line0 :: _ => Utils.leadingSpace line0
                            | [] => O
                            end) (JS.split Utils.newline s)) = s).
  { assert (Hk : match JS.split Utils.newline s with
                 | line0 :: _ => Utils.leadingSpace line0
                 | [] => O
                 end = O).
    { destruct s as [|c r]; [reflexivity|].
      cbn [starts_flush] in Hs. apply negb_true_iff in Hs.
      assert (Hc : Ascii.eqb c Utils.newline = false).
      { destruct (Ascii.eqb c Utils.newline) eqn:E; [|reflexivity].
        apply Ascii.eqb_eq in E. subst c. discriminate Hs. }
      destruct (split_first_char Utils.newline c r Hc) as (x & xs & ->).
      cbn [Utils.leadingSpace]. now rewrite Hs. }
    rewrite Hk. rewrite (map_ext _ (fun l => l) drop_zero), map_id.
    apply join_split. }
  split.
  - unfold Utils.dedent.
    assert (Hstrip : Utils.stripLeadingNewline s = s).
    { destruct s as [|c r]; [reflexivity|].
      cbn [starts_flush] in Hs. apply negb_true_iff in Hs.
      cbn [Utils.stripLeadingNewline].
      destruct (Ascii.eqb c Utils.newline) eqn:E; [|reflexivity].
      apply Ascii.eqb_eq in E. subst c. discriminate Hs. }
    rewrite Hstrip. exact Hbody.
  - unfold Utils.dedent. cbn [Utils.stripLeadingNewline].
    rewrite Ascii.eqb_refl. exact Hbody.
Qed.

Lemma dedent_keeps_flush_text_witness :
  Utils.dedent "Usage: explore [options]" = "Usage: explore [options]"
  /\ Utils.dedent (String Utils.newline "Usage: explore [options]")
     = "Usage: explore [options]".
Proof.
  apply dedent_keeps_flush_text. reflexivity.
Defined.

(** X17. [dedent] keeps the lines apart: the lines of its result are the
    lines of the text, after the leading newline is removed, each without
    its first [k] characters, where [k] is the number of white-space
    characters the first line starts with; lines shorter than [k] become
    empty, and no line is joined to another. *)
Theorem dedent_works_line_by_line s :
  let lines := JS.split Utils.newline (Utils.stripLeadingNewline s) in
  let k := Utils.leadingSpace (hd "" lines) in
  JS.split Utils.newline (Utils.dedent s) = map (JS.drop k) lines
  /\ List.length (JS.split Utils.newline (Utils.dedent s)) = List.length lines.
Proof.
  cbv zeta. unfold Utils.dedent.
  set (lines := JS.split Utils.newline (Utils.stripLeadingNewline s)).
  assert (Hne : lines <> []) by apply split_nonempty.
  assert (Hk : match lines with
               | line0 :: _ => Utils.leadingSpace line0
               | [] => O
               end = Utils.leadingSpace (hd "" lines))
    by (destruct lines; [congruence | reflexivity]).
  rewrite Hk.
  assert (E : JS.split Utils.newline
                (JS.join (String Utils.newline "")
                   (map (JS.drop (Utils.leadingSpace (hd "" lines))) lines))
              = map (JS.drop (Utils.leadingSpace (hd "" lines))) lines).
  { apply split_join.
    - destruct lines; [congruence | discriminate].
    - intros x Hx. apply in_map_iff in Hx. destruct Hx as (l & <- & Hl).
      apply has_char_drop.
      now apply (split_parts_no_sep Utils.newline (Utils.stripLeadingNewline s) l). }
  split; [exact E|]. rewrite E. apply length_map.
Qed.

(** The failing branch of X2 on the sample: reversed bounds pass
    [parseRange], the stream refuses them after the head was written. *)
Example reversed_range_leaves_a_206_without_body :
  answer (Sample.serve (Sample.get "/app.js"
                          (Sample.with_range "bytes=5-2" Sample.plain)))
  = (Throw HeadersSent,
     {| head := Some (206,
                      partialHeaders {| start := JS.Int 5; end_ := JS.Int 2 |} 102
                        (responseHeaders (Sample.platform Sample.disk)
                           "/srv/www/app.js"
                           {| size := 102; mtime := 784887151000;
                              isDirectory := false |}
                           "98c44c2818af753d938b5de9bedf966b"));
        body := None |}).
Proof. vm_compute. reflexivity. Qed.
